(** * Moodify runner (src/runner.py): a shallow embedding

    The development follows the layout of [runner.py]:
    - [PyDict]: insertion-ordered dictionaries, as the literals
      [emotions] and [clustered_emotions] build them;
    - [EmotionMapping]: [emotions], [find_emotion], [clustered_emotions],
      [get_colormap], [normalize_value] (lines 157-247);
    - [Pipeline]: [Attention], [AudioNet], the two module-level
      [extract_features], [predict], [class Predictor],
      [class MusicGenreClassifier] (lines 14-154 and 254-309), and the
      names the module binds;
    - [App]: [main] (lines 316-344).

    In [EmotionMapping] Python floats are read as real numbers ([R]):
    the properties are stated for real valence/arousal pairs, and
    [math.inf] is the extra point [PInf] of [xreal].  In [Pipeline] the
    calls into [librosa], [numpy] and [torch] are the fields of an
    interface, [Libs]; the code runs in a state monad over the files,
    the random generator and the object the method belongs to. *)

From stdpp Require Import gmap strings list.
From Stdlib Require Import Reals Lra ZArith Lia.

(** ** Insertion-ordered dictionaries *)

Module PyDict.

(** A Python [dict] keeps its keys in insertion order; assigning to a
    key that is already present overwrites the value in place. *)
Fixpoint set {V : Type} (d : list (string * V)) (k : string) (v : V)
  : list (string * V) :=
  match d with
  | [] => [(k, v)]
  | (k', v') :: d' =>
      if String.eqb k' k then (k', v) :: d' else (k', v') :: set d' k v
  end.

(** A dict display [{k1: v1, ..., kn: vn}] inserts its items left to
    right. *)
Definition of_items {V : Type} (items : list (string * V))
  : list (string * V) :=
  fold_left (fun d kv => set d kv.1 kv.2) items [].

Definition keys {V : Type} (d : list (string * V)) : list string := d.*1.

Lemma set_fresh {V} (d : list (string * V)) k v :
  k ∉ keys d → set d k v = d ++ [(k, v)].
Proof.
  induction d as [|[k' v'] d IH]; simpl; [done|].
  intros Hk. apply not_elem_of_cons in Hk as [Hne Hk].
  destruct (String.eqb_spec k' k) as [->|_]; [done|].
  by rewrite IH.
Qed.

Lemma of_items_app {V} (l1 l2 : list (string * V)) :
  of_items (l1 ++ l2)
  = fold_left (fun d kv => set d kv.1 kv.2) l2 (of_items l1).
Proof. unfold of_items. by rewrite fold_left_app. Qed.

(** A display without repeated keys is stored as it is written. *)
Lemma of_items_NoDup {V} (items : list (string * V)) :
  NoDup (keys items) → of_items items = items.
Proof.
  induction items as [|[k v] items IH] using rev_ind; [done|].
  unfold keys. rewrite fmap_app. simpl.
  intros Hnd. apply NoDup_app in Hnd as (Hnd & Hdisj & _).
  rewrite of_items_app, (IH Hnd). simpl.
  apply set_fresh. intros Hin. apply (Hdisj _ Hin), list_elem_of_singleton.
  reflexivity.
Qed.

End PyDict.

(** ** Emotion mapping (runner.py, lines 157-247) *)

Module EmotionMapping.

Local Open Scope R_scope.

(** The value of one catalog entry: [{"valence": v, "arousal": a}]. *)
Record scores : Type := Scores { valence : R; arousal : R }.

(** The items of the [emotions] display, in source order. *)
Definition emotions_items : list (string * scores) :=
  [ ("Sleepy", Scores 0.01 (-1.00));
    ("Tired", Scores (-0.01) (-1.00));
    ("Afraid", Scores (-0.12) 0.79);
    ("Angry", Scores (-0.40) 0.79);
    ("Calm", Scores 0.78 (-0.68));
    ("Relaxed", Scores 0.71 (-0.65));
    ("Content", Scores 0.81 (-0.55));
    ("Depressed", Scores (-0.81) (-0.48));
    ("Discontent", Scores (-0.68) (-0.32));
    ("Determined", Scores 0.73 0.26);
    ("Happy", Scores 0.89 0.17);
    ("Anxious", Scores (-0.72) (-0.80));
    ("Good", Scores 0.90 (-0.08));
    ("Pensive", Scores 0.03 (-0.60));
    ("Impressed", Scores 0.39 (-0.06));
    ("Frustrated", Scores (-0.60) 0.40);
    ("Disappointed", Scores (-0.80) (-0.03));
    ("Bored", Scores (-0.35) (-0.78));
    ("Annoyed", Scores (-0.44) 0.76);
    ("Enraged", Scores (-0.18) 0.83);
    ("Excited", Scores 0.70 0.71);
    ("Melancholy", Scores (-0.05) (-0.65));
    ("Satisfied", Scores 0.77 (-0.63));
    ("Distressed", Scores (-0.71) 0.55);
    ("Uncomfortable", Scores (-0.68) (-0.37));
    ("Worried", Scores (-0.07) (-0.32));
    ("Amused", Scores 0.55 0.19);
    ("Apathetic", Scores (-0.20) (-0.12));
    ("Peaceful", Scores 0.55 (-0.80));
    ("Contemplative", Scores 0.58 (-0.60));
    ("Embarrassed", Scores (-0.31) (-0.60));
    ("Sad", Scores (-0.81) (-0.40));
    ("Hopeful", Scores 0.61 (-0.30));
    ("Pleased", Scores 0.89 (-0.10)) ].

(** [emotions = { ... }] *)
Definition emotions : list (string * scores) := PyDict.of_items emotions_items.









(** [emotion in emotion_list], where [emotion] may be [None]: [None] is
    no element of a list of strings. *)
Definition py_in (emotion : option string) (emotion_list : list string)
  : bool :=
  match emotion with
  | None => false
  | Some e => existsb (String.eqb e) emotion_list
  end.

(** The [for color, emotion_list in clustered_emotions.items()] loop of
    [get_colormap], with its [return None] fall-through. *)
Fixpoint color_of (emotion : option string)
    (clusters : list (string * list string)) : option string :=
  match clusters with
  | [] => None
  | (color, emotion_list) :: rest =>
      if py_in emotion emotion_list then Some color
      else color_of emotion rest
  end.






(** *** Facts about the catalog and the cluster map *)

Lemma emotions_keys_NoDup : NoDup (PyDict.keys emotions_items).
Proof.
  unfold PyDict.keys, emotions_items. cbn [fmap list_fmap fst].
  apply (bool_decide_unpack _). by vm_compute.
Qed.

Lemma emotions_stored : emotions = emotions_items.
Proof. apply PyDict.of_items_NoDup, emotions_keys_NoDup. Qed.


(** *** The search loop *)





(** *** Distances *)










(** *** The catalog and the cluster map *)










(** The catalog does not have 33 entries. *)
Lemma emotions_not_33 :
  ¬ (length emotions = 33%nat ∧ NoDup (PyDict.keys emotions)).
Proof. rewrite emotions_stored. intros [Hlen _]. by cbn in Hlen. Qed.

(** C4 (amended). The emotion catalog is a fixed mapping containing
    exactly 34 emotion names, written without a repeated key (so the
    mapping holds every item of the display, in source order), and each
    name is mapped to exactly one record of two reals, its valence and
    its arousal. *)
Theorem emotions_catalog_34 :
  length emotions = 34%nat
  ∧ NoDup (PyDict.keys emotions)
  ∧ emotions = emotions_items
  ∧ (∀ name s1 s2,
       (name, s1) ∈ emotions → (name, s2) ∈ emotions → s1 = s2).
Proof.
  split; [|split; [|split]].
  - by rewrite emotions_stored.
  - rewrite emotions_stored. apply emotions_keys_NoDup.
  - apply emotions_stored.
  - intros name s1 s2 H1 H2.
    pose proof emotions_keys_NoDup as Hnd. rewrite <- emotions_stored in Hnd.
    apply list_elem_of_lookup in H1 as [i1 H1], H2 as [i2 H2].
    assert (i1 = i2) as ->; [|congruence].
    eapply (NoDup_lookup _ i1 i2 name Hnd);
      unfold PyDict.keys; rewrite list_lookup_fmap.
    + by rewrite H1.
    + by rewrite H2.
Qed.



(** *** Further properties of the mapping *)

Lemma py_in_Some e l : py_in (Some e) l = true ↔ e ∈ l.
Proof.
  simpl. rewrite existsb_exists. split.
  - intros (x & Hx & ->%String.eqb_eq). by apply list_elem_of_In.
  - intros Hin. exists e. split; [by apply list_elem_of_In|].
    apply String.eqb_refl.
Qed.

(** X1. On any cluster map, the color loop of [get_colormap] returns
    the color of the first cluster that lists the emotion: it returns
    [c] exactly when some cluster [i] has color [c] and lists the
    emotion while no earlier cluster lists it; it returns [None] exactly
    when no cluster lists the emotion, and always when the emotion is
    [None]. *)
Theorem color_of_first_cluster (e : string)
    (clusters : list (string * list string)) :
  (∀ c, color_of (Some e) clusters = Some c
        ↔ ∃ i l, clusters !! i = Some (c, l) ∧ e ∈ l
                 ∧ ∀ j cl, (j < i)%nat → clusters !! j = Some cl → e ∉ cl.2)
  ∧ (color_of (Some e) clusters = None ↔ ∀ cl, cl ∈ clusters → e ∉ cl.2)
  ∧ color_of None clusters = None.
Proof.
  split; [|split].
  - induction clusters as [|[c0 l0] clusters IH]; intros c.
    { split; [done|]. by intros (i & l & Hi & _). }
    cbn [color_of]. destruct (py_in (Some e) l0) eqn:Hin.
    + apply py_in_Some in Hin. split.
      * intros [= <-]. exists 0%nat, l0. split; [done|]. split; [done|].
        intros j cl Hj. lia.
      * intros ([|i] & l & Hi & Hl & Hfirst).
        { by simplify_eq/=. }
        exfalso. by apply (Hfirst 0%nat (c0, l0) ltac:(lia) eq_refl).
    + assert (e ∉ l0) as Hnot.
      { intros H%py_in_Some. congruence. }
      rewrite IH. split.
      * intros (i & l & Hi & Hl & Hfirst). exists (S i), l.
        split; [done|]. split; [done|].
        intros [|j] cl Hj Hcl; simplify_eq/=; [done|].
        apply (Hfirst j cl); [lia|done].
      * intros ([|i] & l & Hi & Hl & Hfirst).
        { by simplify_eq/=. }
        exists i, l. split; [done|]. split; [done|].
        intros j cl Hj Hcl. apply (Hfirst (S j) cl); [lia|done].
  - induction clusters as [|[c0 l0] clusters IH].
    { split; [|done]. intros _ cl Hcl. by apply elem_of_nil in Hcl. }
    cbn [color_of]. destruct (py_in (Some e) l0) eqn:Hin.
    + apply py_in_Some in Hin. split; [done|]. intros H.
      by destruct (H (c0, l0) ltac:(left)).
    + assert (e ∉ l0) as Hnot.
      { intros H%py_in_Some. congruence. }
      rewrite IH. split.
      * intros H cl [->|Hcl]%elem_of_cons; [done|]. by apply H.
      * intros H cl Hcl. apply H. by right.
  - by induction clusters as [|[c0 l0] clusters IH].
Qed.








End EmotionMapping.

(** ** The affect pipeline (runner.py, lines 14-154) *)

Module Pipeline.

(** *** Outcomes, exceptions and the state monad of the embedding *)

(** A call either returns a value or raises a Python exception. *)
Inductive result (E A : Type) : Type :=
| Ok (a : A)
| Raise (e : E).
Arguments Ok {E A} a.
Arguments Raise {E A} e.


(** Code running on a mutable state [S]: the state is threaded through
    every call and survives an exception, as a mutated Python object
    does. *)
Definition M (E S A : Type) : Type := S → result E A * S.

Definition run {E S A} (m : M E S A) (s : S) : result E A * S := m s.

Definition ret {E S A} (a : A) : M E S A := λ s, (Ok a, s).

Definition bind {E S A B} (m : M E S A) (k : A → M E S B) : M E S B :=
  λ s, match m s with
       | (Ok a, s') => k a s'
       | (Raise e, s') => (Raise e, s')
       end.

(** A pure call that may raise. *)
Definition try {E S A} (r : result E A) : M E S A := λ s, (r, s).

Definition modify {E S} (f : S → S) : M E S unit := λ s, (Ok tt, f s).

(** Runs code written for a part [T] of the state [S] (an attribute of
    [self]) on the whole state. *)
Definition zoom {E S T A} (proj : S → T) (upd : T → S → S) (m : M E T A)
  : M E S A :=
  λ s, match m (proj s) with (r, t) => (r, upd t s) end.

#[global] Instance M_ret {E S} : MRet (M E S) := λ A, ret.
#[global] Instance M_bind {E S} : MBind (M E S) := λ A B k m, bind m k.

(** A matrix is the list of its rows ([numpy] axis 0). *)
Definition matrix (A : Type) : Type := list (list A).
Definition nrows {A} (m : matrix A) : nat := length m.
Definition ncols {A} (m : matrix A) : nat :=
  match m with [] => 0 | row :: _ => length row end.

(** The two regressors held by a [Predictor]. *)
Inductive model_ref : Type := Valence | Arousal.

(** *** The libraries the module calls

    [librosa], [numpy] and [torch] are not part of the repository: their
    functions are the fields of [Libs].  Everything a call can depend on
    is an argument: the files for a read, the generator state for a
    random draw. *)
Class Libs : Type := {
  sample : Type;       (** a waveform sample *)
  zero : sample;       (** the constant [np.pad] fills with *)
  scalar : Type;       (** a Python float *)
  tensor : Type;
  weights : Type;      (** a [state_dict]: parameters and buffers *)
  rng : Type;          (** the state of torch's random generator *)
  files : Type;        (** the file system *)
  exn : Type;          (** Python exceptions *)
  ValueError : exn;
  (** [librosa.load(path, sr=sr)]: the waveform and its sample rate *)
  librosa_load : files → string → option Z → result exn (list sample * Z);
  (** [librosa.feature.mfcc(y, sr, n_mfcc, n_fft, hop_length, win_length)] *)
  mfcc : list sample → Z → Z → Z → Z → option Z → result exn (matrix sample);
  (** [librosa.feature.chroma_stft(y, sr, n_fft, hop_length)] *)
  chroma_stft : list sample → Z → Z → Z → result exn (matrix sample);
  (** [librosa.feature.spectral_contrast(y, sr, n_fft, hop_length)] *)
  spectral_contrast : list sample → Z → Z → Z → result exn (matrix sample);
  (** the other [librosa] calls of the genre extractor, by name, with
      the sample rate when the call passes it *)
  librosa_other :
    string → list sample → option Z → result exn (matrix sample);
  np_mean : matrix sample → sample;
  np_var : matrix sample → sample;
  (** [torch.tensor(features, dtype=torch.float32).unsqueeze(0)] *)
  to_tensor : matrix sample → tensor;
  (** [torch.randn(shape)] *)
  randn : list Z → rng → tensor * rng;
  (** random initial parameters of the convolution blocks
      ([in_ch], [num_filters1], [num_filters2]) *)
  init_conv : Z → Z → Z → rng → weights * rng;
  (** random initial parameters of the attention scorer and of the two
      linear layers, added to the convolution parameters ([feature_dim]
      of the scorer, input width of [fc1], [num_hidden], [out_size]) *)
  init_head : weights → Z → Z → Z → Z → rng → weights * rng;
  (** [nn.Conv1d]: raises on a channel-count mismatch *)
  conv1d : weights → string → tensor → result exn tensor;
  (** [nn.BatchNorm1d] with frozen running statistics *)
  batch_norm_eval : weights → string → tensor → tensor;
  (** [nn.BatchNorm1d] on batch statistics; updates the running ones *)
  batch_norm_train : weights → string → tensor → tensor * weights;
  relu : tensor → tensor;
  (** [nn.AvgPool1d(kernel_size, stride)] *)
  avg_pool1d : Z → Z → tensor → tensor;
  (** [x.view(-1, n)] *)
  view : Z → tensor → result exn tensor;
  (** [nn.Linear] *)
  linear : weights → string → tensor → result exn tensor;
  (** [F.softmax(scores, dim=1)] *)
  softmax : tensor → tensor;
  (** [x * alpha] *)
  mul : tensor → tensor → result exn tensor;
  (** [nn.Dropout(p=0.5)] while training: a random mask *)
  dropout_train : tensor → rng → tensor * rng;
  numel : tensor → Z;
  shape0 : tensor → Z;
  (** [x.item()] *)
  item : tensor → result exn scalar;
  (** [torch.load(path, map_location=device)] *)
  torch_load : files → string → result exn weights;
  (** [load_state_dict]: the loaded parameters and buffers replace the
      current ones; raises when keys or shapes do not match *)
  load_state_dict : weights → weights → result exn weights;
}.

(** Modelled from the spec: the shapes of the three [librosa]
    descriptors, whose defaults ([n_chroma], [n_bands]) are not in the
    repository.  The cepstral descriptor has [n_mfcc] rows, the
    chromatic one 12, the spectral-contrast one 7, and with one hop
    length and FFT size they have the same number of frames; a load at
    a requested sample rate returns that rate. *)
Class LibsLaws (L : Libs) : Prop := {
  load_sr : ∀ f path sr y sr',
    librosa_load f path (Some sr) = Ok (y, sr') → sr' = sr;
  mfcc_rows : ∀ y sr n_mfcc n_fft hop win m,
    mfcc y sr n_mfcc n_fft hop win = Ok m → Z.of_nat (nrows m) = n_mfcc;
  chroma_rows : ∀ y sr n_fft hop m,
    chroma_stft y sr n_fft hop = Ok m → nrows m = 12%nat;
  contrast_rows : ∀ y sr n_fft hop m,
    spectral_contrast y sr n_fft hop = Ok m → nrows m = 7%nat;
  frames_aligned : ∀ y sr n_fft hop win n_mfcc m1 m2 m3,
    mfcc y sr n_mfcc n_fft hop win = Ok m1 →
    chroma_stft y sr n_fft hop = Ok m2 →
    spectral_contrast y sr n_fft hop = Ok m3 →
    ncols m2 = ncols m1 ∧ ncols m3 = ncols m1;
}.

Section Code.
Context {L : Libs}.

(** *** The environment of a run

    The files, the random generator, and a trace of the library calls
    made so far.  The trace is ghost state: it records which calls the
    code makes and on what, and no code reads it. *)
Inductive event : Type :=
| EvLoad (path : string)
| EvTransform (name : string) (y : list sample)
| EvForward (m : model_ref) (x : tensor).

Record env : Type := Env {
  env_files : files;
  env_rng : rng;
  env_trace : list event;
}.

Definition log (ev : event) : M exn env unit :=
  modify (λ e, Env (env_files e) (env_rng e) (env_trace e ++ [ev])).

(** A random draw advances the generator. *)
Definition draw {A} (f : rng → A * rng) : M exn env A :=
  λ e, match f (env_rng e) with
       | (a, g) => (Ok a, Env (env_files e) g (env_trace e))
       end.

Definition read_files {A} (f : files → result exn A) : M exn env A :=
  λ e, (f (env_files e), e).

(** Code of a method: the environment together with [self]. *)
Definition in_env {X A} (m : M exn env A) : M exn (env * X) A :=
  zoom fst (λ e s, (e, s.2)) m.

Definition self {X} : M exn (env * X) X := λ s, (Ok s.2, s).

Definition update_self {X} (f : X → X) : M exn (env * X) unit :=
  modify (λ s, (s.1, f s.2)).

(** Runs the body of a constructor on a fresh object [x] and returns the
    object with the body's value. *)
Definition new {X A} (x : X) (m : M exn (env * X) A) : M exn env (A * X) :=
  λ e, match m (e, x) with
       | (Ok a, (e', x')) => (Ok (a, x'), e')
       | (Raise ex, (e', _)) => (Raise ex, e')
       end.

(** *** [class AudioNet] (lines 30-81) with its [Attention] (lines 14-28)

    [state] is the module's [state_dict]; [training] is the mode flag
    that [train()] and [eval()] set on the module and on all of its
    children at once; [feature_dim] is the attribute of the attention
    submodule. *)
Record AudioNet : Type := mkAudioNet {
  in_ch : Z;
  num_filters1 : Z;
  num_filters2 : Z;
  num_hidden : Z;
  out_size : Z;
  feature_dim : Z;
  state : weights;
  training : bool;
  _to_linear : option Z;
}.

Definition set_state (w : weights) (n : AudioNet) : AudioNet :=
  mkAudioNet (in_ch n) (num_filters1 n) (num_filters2 n) (num_hidden n)
             (out_size n) (feature_dim n) w (training n) (_to_linear n).

Definition set_training (b : bool) (n : AudioNet) : AudioNet :=
  mkAudioNet (in_ch n) (num_filters1 n) (num_filters2 n) (num_hidden n)
             (out_size n) (feature_dim n) (state n) b (_to_linear n).

Definition set_to_linear (v : option Z) (n : AudioNet) : AudioNet :=
  mkAudioNet (in_ch n) (num_filters1 n) (num_filters2 n) (num_hidden n)
             (out_size n) (feature_dim n) (state n) (training n) v.

Definition set_feature_dim (d : Z) (n : AudioNet) : AudioNet :=
  mkAudioNet (in_ch n) (num_filters1 n) (num_filters2 n) (num_hidden n)
             (out_size n) d (state n) (training n) (_to_linear n).

(** [model.eval()] *)
Definition eval (n : AudioNet) : AudioNet := set_training false n.

(** [nn.BatchNorm1d]: batch statistics and an update of the running
    ones while training, the frozen running statistics otherwise. *)
Definition batch_norm (name : string) (x : tensor)
  : M exn (env * AudioNet) tensor :=
  net ← self;
  if training net then
    match batch_norm_train (state net) name x with
    | (y, w) => update_self (set_state w);; mret y
    end
  else mret (batch_norm_eval (state net) name x).

(** [nn.Sequential(nn.Conv1d(..., kernel_size=10, stride=1),
    nn.BatchNorm1d(...), nn.ReLU(inplace=True),
    nn.AvgPool1d(kernel_size=2, stride=2))] *)
Definition conv_block (conv bn : string) (x : tensor)
  : M exn (env * AudioNet) tensor :=
  net ← self;
  x ← try (conv1d (state net) conv x);
  x ← batch_norm bn x;
  mret (avg_pool1d 2 2 (relu x)).

Definition conv1 : tensor → M exn (env * AudioNet) tensor :=
  conv_block "conv1.0" "conv1.1".
Definition conv2 : tensor → M exn (env * AudioNet) tensor :=
  conv_block "conv2.0" "conv2.1".
(** [self.pool = nn.AvgPool1d(kernel_size=10, stride=10)] *)
Definition pool (x : tensor) : tensor := avg_pool1d 10 10 x.

(** [nn.Dropout(p=0.5)]: a random mask while training, the identity
    otherwise. *)
Definition drop (x : tensor) : M exn (env * AudioNet) tensor :=
  net ← self;
  if training net then in_env (draw (dropout_train x)) else mret x.

Definition _get_to_linear : M exn (env * AudioNet) Z :=
  net ← self;
  match _to_linear net with
  | Some n => mret n
  | None =>
      x ← in_env (draw (randn [1; in_ch net; 4501]%Z));
      x ← conv1 x;
      x ← conv2 x;
      let x := pool x in
      let n := (numel x `div` shape0 x)%Z in
      update_self (set_to_linear (Some n));;
      mret n
  end.

(** [Attention.forward] *)
Definition Attention_forward (x : tensor) : M exn (env * AudioNet) tensor :=
  net ← self;
  h ← try (linear (state net) "attention.attention.0" x);
  scores ← try (linear (state net) "attention.attention.2" (relu h));
  let alpha := softmax scores in
  attended_features ← try (mul x alpha);
  try (view (feature_dim net) attended_features).

(** [AudioNet.forward] *)
Definition forward (x : tensor) : M exn (env * AudioNet) tensor :=
  x ← conv1 x;
  x ← conv2 x;
  let x := pool x in
  n ← _get_to_linear;
  x ← try (view n x);
  x ← Attention_forward x;
  net ← self;
  x ← try (linear (state net) "fc1" x);
  x ← drop x;
  let x := relu x in
  net ← self;
  x ← try (linear (state net) "fc2" x);
  mret x.

(** [AudioNet.__init__]: a new module is in training mode; the
    convolution blocks are created first, then the attention scorer and
    the linear layers, sized by [_get_to_linear]. *)
Definition AudioNet_init (params_dict : gmap string Z)
  : M exn env AudioNet :=
  let in_ch := default 1%Z (params_dict !! "in_ch") in
  let num_filters1 := default 32%Z (params_dict !! "num_filters1") in
  let num_filters2 := default 64%Z (params_dict !! "num_filters2") in
  let num_hidden := default 128%Z (params_dict !! "num_hidden") in
  let out_size := default 1%Z (params_dict !! "out_size") in
  w ← draw (init_conv in_ch num_filters1 num_filters2);
  let net := mkAudioNet in_ch num_filters1 num_filters2 num_hidden out_size
                        0 w true None in
  '(d, net) ← new net _get_to_linear;
  let net := set_feature_dim d net in
  '(n, net) ← new net _get_to_linear;
  w ← draw (init_head (state net) d n num_hidden out_size);
  mret (set_state w net).

(** *** Waveform windowing and the descriptors *)

(** [wave[:n]] *)
Definition slice_to {A} (n : Z) (l : list A) : list A :=
  if (0 <=? n)%Z then take (Z.to_nat n) l
  else take (Z.to_nat (Z.of_nat (length l) + n)) l.

(** Lines 85-87 and 134-136:
    [if len(wave) < sr * 45:
         wave = np.pad(wave, (0, sr * 45 - len(wave)), 'constant')
     wave = wave[:sr * 45]] *)
Definition fix_length (sr : Z) (wave : list sample) : list sample :=
  let len := Z.of_nat (length wave) in
  let wave :=
    if (len <? sr * 45)%Z
    then wave ++ replicate (Z.to_nat (sr * 45 - len)) zero
    else wave in
  slice_to (sr * 45) wave.

(** [int(sr * 0.01)] and [int(sr * 0.025)], the products read as exact
    numbers. *)
Definition hop_length (sr : Z) : Z := Z.quot (sr * 1) 100.
Definition win_length (sr : Z) : Z := Z.quot (sr * 25) 1000.

(** [np.concatenate(arrays, axis=0)]: the arrays must agree on the
    number of columns. *)
Definition np_concatenate (arrays : list (matrix sample))
  : result exn (matrix sample) :=
  match arrays with
  | [] => Raise ValueError
  | m :: rest =>
      if forallb (λ m', Nat.eqb (ncols m') (ncols m)) rest
      then Ok (concat arrays)
      else Raise ValueError
  end.

(** The first module-level [extract_features] (lines 83-96). *)
Definition extract_features_1 (audio_path : string) (sample_rate : Z)
  : M exn env (matrix sample) :=
  log (EvLoad audio_path);;
  '(wave, sr) ← read_files (λ f, librosa_load f audio_path (Some sample_rate));
  let wave := fix_length sr wave in
  let hop_length := hop_length sr in
  let win_length := win_length sr in
  log (EvTransform "mfcc" wave);;
  mfcc ← try (mfcc wave sr 20 2048 hop_length (Some win_length));
  log (EvTransform "chroma_stft" wave);;
  chroma ← try (chroma_stft wave sr 2048 hop_length);
  log (EvTransform "spectral_contrast" wave);;
  contrast ← try (spectral_contrast wave sr 2048 hop_length);
  try (np_concatenate [mfcc; chroma; contrast]).

(** The module-level [predict(model, features)] (lines 99-106). *)
Definition predict_1 (features : matrix sample)
  : M exn (env * AudioNet) tensor :=
  update_self eval;;
  forward (to_tensor features).

(** *** [class Predictor] (lines 108-154) *)

Record Predictor : Type := mkPredictor {
  model_path_valence : string;
  model_path_arousal : string;
  valence_model : AudioNet;
  arousal_model : AudioNet;
}.

Definition valence_params : gmap string Z :=
  list_to_map [("in_ch", 39); ("num_filters1", 32); ("num_filters2", 64);
               ("num_hidden", 64); ("out_size", 1)]%Z.

Definition arousal_params : gmap string Z :=
  list_to_map [("in_ch", 39); ("num_filters1", 32); ("num_filters2", 32);
               ("num_hidden", 128); ("out_size", 1)]%Z.

(** [Predictor.load_model] *)
Definition load_model (model_path : string) (params : gmap string Z)
  : M exn env AudioNet :=
  model ← AudioNet_init params;
  state_dict ← read_files (λ f, torch_load f model_path);
  w ← try (load_state_dict (state model) state_dict);
  let model := set_state w model in
  mret (eval model).

(** [Predictor.__init__] *)
Definition Predictor_init (model_path_valence model_path_arousal : string)
  : M exn env Predictor :=
  valence_model ← load_model model_path_valence valence_params;
  arousal_model ← load_model model_path_arousal arousal_params;
  mret (mkPredictor model_path_valence model_path_arousal
                    valence_model arousal_model).

(** [Predictor.extract_features]: up to line 145 ([features]) *)
Definition Predictor_features (audio_path : string)
  : M exn env (matrix sample) :=
  let sample_rate := 44100%Z in
  log (EvLoad audio_path);;
  '(wave, sr) ← read_files (λ f, librosa_load f audio_path (Some sample_rate));
  let wave := fix_length sr wave in
  let hop_length := hop_length sr in
  let win_length := win_length sr in
  log (EvTransform "mfcc" wave);;
  mfcc ← try (mfcc wave sr 20 2048 hop_length (Some win_length));
  log (EvTransform "chroma_stft" wave);;
  chroma ← try (chroma_stft wave sr 2048 hop_length);
  log (EvTransform "spectral_contrast" wave);;
  contrast ← try (spectral_contrast wave sr 2048 hop_length);
  try (np_concatenate [mfcc; chroma; contrast]).

(** [Predictor.extract_features] *)
Definition Predictor_extract_features (audio_path : string)
  : M exn env tensor :=
  features ← Predictor_features audio_path;
  let features_tensor := to_tensor features in
  mret features_tensor.

Definition get_model (m : model_ref) (p : Predictor) : AudioNet :=
  match m with Valence => valence_model p | Arousal => arousal_model p end.

Definition set_model (m : model_ref) (n : AudioNet) (p : Predictor)
  : Predictor :=
  match m with
  | Valence => mkPredictor (model_path_valence p) (model_path_arousal p)
                           n (arousal_model p)
  | Arousal => mkPredictor (model_path_valence p) (model_path_arousal p)
                           (valence_model p) n
  end.

(** [self.valence_model(features)], [self.arousal_model(features)] *)
Definition call_model (m : model_ref) (x : tensor)
  : M exn (env * Predictor) tensor :=
  in_env (log (EvForward m x));;
  zoom (λ s, (s.1, get_model m s.2))
       (λ t s, (t.1, set_model m t.2 s.2))
       (forward x).

(** [Predictor.predict] *)
Definition predict (audio_path : string)
  : M exn (env * Predictor) (scalar * scalar) :=
  features ← in_env (Predictor_extract_features audio_path);
  valence_prediction ← call_model Valence features;
  arousal_prediction ← call_model Arousal features;
  v ← try (item valence_prediction);
  a ← try (item arousal_prediction);
  mret (v, a).

(** *** The second module-level [extract_features] (lines 284-309) *)

Definition stats (m : matrix sample) : list sample := [np_mean m; np_var m].

Definition extract_features_2 (audio_path : string)
  : M exn env (list sample) :=
  '(y, sr) ← read_files (λ f, librosa_load f audio_path None);
  let features := [] in
  chroma_stft ← try (chroma_stft y sr 2048 512);
  let features := features ++ stats chroma_stft in
  rms ← try (librosa_other "rms" y None);
  let features := features ++ stats rms in
  spec_centroid ← try (librosa_other "spectral_centroid" y (Some sr));
  let features := features ++ stats spec_centroid in
  spec_bandwidth ← try (librosa_other "spectral_bandwidth" y (Some sr));
  let features := features ++ stats spec_bandwidth in
  rolloff ← try (librosa_other "spectral_rolloff" y (Some sr));
  let features := features ++ stats rolloff in
  zero_cross_rate ← try (librosa_other "zero_crossing_rate" y None);
  let features := features ++ stats zero_cross_rate in
  harmony ← try (librosa_other "harmonic" y None);
  let features := features ++ stats harmony in
  percussive ← try (librosa_other "percussive" y None);
  let features := features ++ stats percussive in
  tempo ← try (librosa_other "tempo" y (Some sr));
  let features := features ++ [np_mean tempo] in
  mfccs ← try (mfcc y sr 20 2048 512 None);
  let features :=
    fold_left (λ features mfcc, features ++ stats [mfcc]) mfccs features in
  mret features.

End Code.

(** *** The names of the module

    Executing the module binds names in its global namespace, one
    top-level statement after the other; a later binding of a name
    replaces the earlier one. *)
Inductive pyobj : Type :=
| Imported (name : string)
| Class (line : nat)
| Function (line : nat)
| Value (line : nat).

#[global] Instance pyobj_eq_dec : EqDecision pyobj.
Proof. solve_decision. Defined.

(** The top-level bindings of runner.py, in source order. *)
Definition module_body : list (string * pyobj) :=
  [ ("st", Imported "streamlit"); ("librosa", Imported "librosa");
    ("np", Imported "numpy"); ("pd", Imported "pandas");
    ("math", Imported "math"); ("alt", Imported "altair");
    ("os", Imported "os"); ("torch", Imported "torch");
    ("nn", Imported "torch.nn"); ("F", Imported "torch.nn.functional");
    ("MusicOnTrajectory", Imported "shapes.MusicOnTrajectory");
    ("Line", Imported "shapes.Line"); ("Circle", Imported "shapes.Circle");
    ("Triangle", Imported "shapes.Triangle");
    ("Parabola", Imported "shapes.Parabola");
    ("Attention", Class 14); ("AudioNet", Class 30);
    ("extract_features", Function 83); ("predict", Function 99);
    ("Predictor", Class 108);
    ("emotions", Value 157); ("find_emotion", Function 194);
    ("clustered_emotions", Value 207); ("get_colormap", Function 238);
    ("normalize_value", Function 246);
    ("torch", Imported "torch"); ("nn", Imported "torch.nn");
    ("MusicGenreClassifier", Class 254); ("model", Value 280);
    ("extract_features", Function 284);
    ("df", Value 312); ("main", Function 316) ].

Definition exec_module (body : list (string * pyobj)) : gmap string pyobj :=
  fold_left (λ globals b, <[b.1 := b.2]> globals) body ∅.

Definition module_globals : gmap string pyobj := exec_module module_body.





(** *** A small instance of the libraries

    Samples, scalars, weights and generator states are integers, a
    tensor is a flat list, a file is a list of integers.  The instance
    serves to run the code on concrete inputs. *)

Module Toy.

Definition first (y : list Z) : Z := default 0%Z (head y).

Definition rows (n : nat) (y : list Z) : matrix Z :=
  replicate n (replicate 3 (first y)).

Definition total (x : list Z) : Z := foldr Z.add 0%Z x.

Definition libs : Libs := {|
  sample := Z;
  zero := 0%Z;
  scalar := Z;
  tensor := list Z;
  weights := Z;
  rng := Z;
  files := gmap string (list Z);
  exn := string;
  ValueError := "ValueError";
  librosa_load f path sr :=
    match f !! path with
    | Some y => Ok (y, default 22050%Z sr)
    | None => Raise "FileNotFoundError"
    end;
  mfcc y sr n_mfcc n_fft hop win :=
    if (0 <? n_mfcc)%Z then Ok (rows (Z.to_nat n_mfcc) y)
    else Raise "ParameterError";
  chroma_stft y sr n_fft hop := Ok (rows 12 y);
  spectral_contrast y sr n_fft hop := Ok (rows 7 y);
  librosa_other name y sr := Ok [[first y]];
  np_mean m := first (concat m);
  np_var m := 0%Z;
  to_tensor m := concat m;
  randn shape g := ([g], (g + 1)%Z);
  init_conv a b c g := (g, (g + 1)%Z);
  init_head w d n h o g := ((w + g)%Z, (g + 1)%Z);
  conv1d w name x :=
    match x with [] => Raise "RuntimeError" | _ => Ok (Z.add w <$> x) end;
  batch_norm_eval w name x := x;
  batch_norm_train w name x := (x, (w + 1)%Z);
  relu x := Z.max 0 <$> x;
  avg_pool1d k s x := x;
  view n x := Ok x;
  linear w name x := Ok [(w + total x)%Z];
  softmax x := (λ _, 1%Z) <$> x;
  mul x alpha := Ok x;
  dropout_train x g := (Z.mul g <$> x, (g + 1)%Z);
  numel x := Z.of_nat (length x);
  shape0 x := 1%Z;
  item x := match x with [v] => Ok v | _ => Raise "ValueError" end;
  torch_load f path :=
    match f !! path with
    | Some (w :: _) => Ok w
    | _ => Raise "FileNotFoundError"
    end;
  load_state_dict current loaded := Ok loaded;
|}.

Definition disk : gmap string (list Z) :=
  list_to_map [("song.mp3", [3; 1; 4]%Z); ("empty.wav", []);
               ("valence.pth", [2]%Z); ("arousal.pth", [5]%Z)].

(** The environment at start-up, with generator state [seed]. *)
Definition start (seed : Z) : env (L := libs) := Env (L := libs) disk seed [].

End Toy.

(** *** The monad *)

Section MonadFacts.
Context {E S : Type}.

Lemma run_bind {A B} (m : M E S A) (k : A → M E S B) s :
  run (m ≫= k) s
  = match run m s with
    | (Ok a, s') => run (k a) s'
    | (Raise e, s') => (Raise e, s')
    end.
Proof. reflexivity. Qed.


Lemma run_bind_Raise {A B} (m : M E S A) (k : A → M E S B) s e s' :
  run m s = (Raise e, s') → run (m ≫= k) s = (Raise e, s').
Proof. intros H. by rewrite run_bind, H. Qed.

Lemma run_ret {A} (a : A) s : run (mret a : M E S A) s = (Ok a, s).
Proof. reflexivity. Qed.

Lemma run_try {A} (r : result E A) s : run (try r : M E S A) s = (r, s).
Proof. reflexivity. Qed.

End MonadFacts.

(** *** The 45-second window *)

Section Window.
Context {L : Libs}.

Lemma fix_length_spec sr wave :
  (0 ≤ sr)%Z →
  fix_length sr wave
  = take (Z.to_nat (sr * 45)) wave
    ++ replicate (Z.to_nat (sr * 45) - length wave) zero.
Proof.
  intros Hsr. unfold fix_length, slice_to.
  destruct (Z.leb_spec 0 (sr * 45)) as [_|?]; [|lia].
  destruct (Z.ltb_spec (Z.of_nat (length wave)) (sr * 45)) as [Hlt|Hge].
  - rewrite take_app_ge by lia.
    rewrite (take_ge wave) by lia.
    f_equal. rewrite take_ge by (rewrite length_replicate; lia).
    f_equal. lia.
  - replace (Z.to_nat (sr * 45) - length wave)%nat with 0%nat by lia.
    by rewrite app_nil_r.
Qed.

Lemma fix_length_length sr wave :
  (0 ≤ sr)%Z → Z.of_nat (length (fix_length sr wave)) = (sr * 45)%Z.
Proof.
  intros Hsr. rewrite fix_length_spec by done.
  rewrite length_app, length_take, length_replicate. lia.
Qed.

(** The window depends on the first [sr * 45] samples only. *)
Lemma fix_length_take sr wave :
  (0 ≤ sr)%Z →
  fix_length sr wave = fix_length sr (take (Z.to_nat (sr * 45)) wave).
Proof.
  intros Hsr. rewrite !fix_length_spec by done.
  rewrite take_take, Nat.min_id, length_take. f_equal. f_equal. lia.
Qed.

Lemma fix_length_agree sr w1 w2 :
  (0 ≤ sr)%Z →
  take (Z.to_nat (sr * 45)) w1 = take (Z.to_nat (sr * 45)) w2 →
  fix_length sr w1 = fix_length sr w2.
Proof.
  intros Hsr Heq.
  by rewrite (fix_length_take sr w1), (fix_length_take sr w2), Heq.
Qed.

Lemma fix_length_beyond sr wave i :
  (0 ≤ sr)%Z → (Z.to_nat (sr * 45) ≤ i)%nat → fix_length sr wave !! i = None.
Proof.
  intros Hsr Hi. apply lookup_ge_None_2.
  pose proof (fix_length_length sr wave Hsr). lia.
Qed.

(** At 44100 Hz the hop is 441 samples and the window 1102. *)
Lemma hop_win_44100 : hop_length 44100 = 441%Z ∧ win_length 44100 = 1102%Z.
Proof. by vm_compute. Qed.


End Window.

Lemma toy_laws : LibsLaws Toy.libs.
Proof.
  split; simpl.
  - intros f path sr y sr' H. destruct (f !! path); by simplify_eq/=.
  - intros y sr n_mfcc n_fft hop win m H.
    destruct (Z.ltb_spec 0 n_mfcc); simplify_eq/=.
    unfold nrows, Toy.rows. rewrite length_replicate. lia.
  - intros y sr n_fft hop m H. by simplify_eq/=.
  - intros y sr n_fft hop m H. by simplify_eq/=.
  - intros y sr n_fft hop win n_mfcc m1 m2 m3 H1 H2 H3.
    destruct (Z.ltb_spec 0 n_mfcc); simplify_eq/=.
    destruct (Z.to_nat n_mfcc) eqn:Hn; [lia|done].
Qed.

(** *** Feature extraction *)

Section Features.
Context {L : Libs}.

Definition add_trace (e : env) (evs : list event) : env :=
  Env (env_files e) (env_rng e) (env_trace e ++ evs).

(** The events of a complete extraction on the window [y]. *)
Definition extraction_events (path : string) (y : list sample) : list event :=
  [EvLoad path; EvTransform "mfcc" y; EvTransform "chroma_stft" y;
   EvTransform "spectral_contrast" y].

(** The event is no transform, or a transform applied to [y]. *)
Definition transform_on (y : list sample) (ev : event) : Prop :=
  match ev with EvTransform _ y' => y' = y | _ => True end.

Ltac unfold_features :=
  unfold Predictor_features, extract_features_1, run, mbind, M_bind, bind,
    mret, M_ret, ret, try, log, modify, read_files, add_trace,
    extraction_events;
  cbn [env_files env_rng env_trace].

Lemma Predictor_features_Ok e path m e' :
  run (Predictor_features path) e = (Ok m, e') →
  ∃ wave sr m1 m2 m3,
    librosa_load (env_files e) path (Some 44100%Z) = Ok (wave, sr)
    ∧ mfcc (fix_length sr wave) sr 20 2048 (hop_length sr)
           (Some (win_length sr)) = Ok m1
    ∧ chroma_stft (fix_length sr wave) sr 2048 (hop_length sr) = Ok m2
    ∧ spectral_contrast (fix_length sr wave) sr 2048 (hop_length sr) = Ok m3
    ∧ np_concatenate [m1; m2; m3] = Ok m
    ∧ e' = add_trace e (extraction_events path (fix_length sr wave)).
Proof.
  unfold_features. intros H.
  destruct (librosa_load _ _ _) as [[wave sr]|?] eqn:Hload; [|done].
  destruct (mfcc _ _ _ _ _ _) as [m1|?] eqn:H1; [|done].
  destruct (chroma_stft _ _ _ _) as [m2|?] eqn:H2; [|done].
  destruct (spectral_contrast _ _ _ _) as [m3|?] eqn:H3; [|done].
  exists wave, sr, m1, m2, m3. repeat (split; [done|]).
  injection H as Hm <-. split; [done|].
  f_equal. by rewrite <- !(assoc_L (++)).
Qed.

Lemma Predictor_features_total e path wave sr m1 m2 m3 m :
  librosa_load (env_files e) path (Some 44100%Z) = Ok (wave, sr) →
  mfcc (fix_length sr wave) sr 20 2048 (hop_length sr)
       (Some (win_length sr)) = Ok m1 →
  chroma_stft (fix_length sr wave) sr 2048 (hop_length sr) = Ok m2 →
  spectral_contrast (fix_length sr wave) sr 2048 (hop_length sr) = Ok m3 →
  np_concatenate [m1; m2; m3] = Ok m →
  run (Predictor_features path) e
  = (Ok m, add_trace e (extraction_events path (fix_length sr wave))).
Proof.
  unfold_features. intros -> -> -> -> ->.
  do 2 f_equal. cbn [env_trace]. by rewrite <- !(assoc_L (++)).
Qed.

(** Whatever the outcome, the trace grows by events whose transforms
    all ran on the window of the decoded waveform. *)
Lemma Predictor_features_trace e path :
  ∃ new,
    env_trace (run (Predictor_features path) e).2 = env_trace e ++ new
    ∧ ∀ wave sr,
        librosa_load (env_files e) path (Some 44100%Z) = Ok (wave, sr) →
        Forall (transform_on (fix_length sr wave)) new.
Proof.
  unfold_features.
  destruct (librosa_load _ _ _) as [[wave sr]|?] eqn:Hload.
  2:{ eexists. split; [done|]. intros ?? [=]. }
  destruct (mfcc _ _ _ _ _ _) as [m1|?] eqn:H1;
    [destruct (chroma_stft _ _ _ _) as [m2|?] eqn:H2;
     [destruct (spectral_contrast _ _ _ _) as [m3|?] eqn:H3|]|];
    cbn [snd env_trace]; rewrite <- ?(assoc_L (++));
    (eexists; split; [reflexivity|]); intros ?? [= <- <-];
    repeat constructor.
Qed.

Lemma nrows_concat {A} (ms : list (matrix A)) :
  nrows (concat ms) = sum_list (nrows <$> ms).
Proof.
  unfold nrows. induction ms as [|x ms IH]; [reflexivity|].
  simpl. rewrite length_app. by rewrite IH.
Qed.

Lemma np_concatenate_rows (ms : list (matrix sample)) m :
  np_concatenate ms = Ok m → nrows m = sum_list (nrows <$> ms).
Proof.
  unfold np_concatenate. destruct ms as [|m0 rest]; [done|].
  destruct (forallb _ _); [|done]. intros [= <-].
  apply (nrows_concat (m0 :: rest)).
Qed.

Lemma np_concatenate_aligned (m1 m2 m3 : matrix sample) :
  ncols m2 = ncols m1 → ncols m3 = ncols m1 →
  np_concatenate [m1; m2; m3] = Ok (m1 ++ m2 ++ m3).
Proof.
  intros H2 H3. unfold np_concatenate. simpl.
  rewrite H2, H3, Nat.eqb_refl. simpl. by rewrite app_nil_r.
Qed.

(** The outcome of an extraction is that of its first failing library
    call, or the concatenated descriptor. *)
Lemma Predictor_features_outcome e path :
  (run (Predictor_features path) e).1
  = match librosa_load (env_files e) path (Some 44100%Z) with
    | Raise ex => Raise ex
    | Ok (wave, sr) =>
        let y := fix_length sr wave in
        match mfcc y sr 20 2048 (hop_length sr) (Some (win_length sr)) with
        | Raise ex => Raise ex
        | Ok m1 =>
            match chroma_stft y sr 2048 (hop_length sr) with
            | Raise ex => Raise ex
            | Ok m2 =>
                match spectral_contrast y sr 2048 (hop_length sr) with
                | Raise ex => Raise ex
                | Ok m3 => np_concatenate [m1; m2; m3]
                end
            end
        end
    end.
Proof.
  unfold Predictor_features, run, mbind, M_bind, bind, mret, M_ret, ret,
    try, log, modify, read_files.
  cbn [env_files env_rng env_trace].
  destruct (librosa_load _ _ _) as [[wave sr]|?]; [|done].
  cbn zeta.
  destruct (mfcc _ _ _ _ _ _); [|done].
  destruct (chroma_stft _ _ _ _); [|done].
  by destruct (spectral_contrast _ _ _ _).
Qed.

Lemma Predictor_extract_features_run e path :
  run (Predictor_extract_features path) e
  = match run (Predictor_features path) e with
    | (Ok m, e') => (Ok (to_tensor m), e')
    | (Raise ex, e') => (Raise ex, e')
    end.
Proof.
  unfold Predictor_extract_features. rewrite run_bind.
  by destruct (run (Predictor_features path) e) as [[m|ex] e'].
Qed.

Section Laws.
Context {HL : LibsLaws L}.

Lemma descriptor_rows y sr hop win m1 m2 m3 :
  mfcc y sr 20 2048 hop win = Ok m1 →
  chroma_stft y sr 2048 hop = Ok m2 →
  spectral_contrast y sr 2048 hop = Ok m3 →
  nrows m1 = 20%nat ∧ nrows m2 = 12%nat ∧ nrows m3 = 7%nat.
Proof.
  intros H1 H2 H3.
  apply mfcc_rows in H1. apply chroma_rows in H2.
  apply contrast_rows in H3. lia.
Qed.

Lemma Predictor_features_rows e path m e' :
  run (Predictor_features path) e = (Ok m, e') → nrows m = 39%nat.
Proof.
  intros Hrun.
  apply Predictor_features_Ok in Hrun
    as (wave & sr & m1 & m2 & m3 & _ & H1 & H2 & H3 & Hcat & _).
  apply np_concatenate_rows in Hcat. rewrite Hcat. simpl.
  by destruct (descriptor_rows _ _ _ _ _ _ _ H1 H2 H3) as (-> & -> & ->).
Qed.

(** C2. In [Predictor.extract_features] the waveform handed to the
    spectral transforms has exactly 44100 * 45 = 1,984,500 samples: it
    is the first 1,984,500 samples of the decoded waveform followed by
    as many zeros as are missing, so a shorter input is zero-padded at
    its end and a longer one is cut; it has no sample at index
    1,984,500 or beyond and is unchanged when the decoded waveform is
    cut to its first 1,984,500 samples.  Every transform the extraction
    runs is applied to that window, and the descriptor is computed from
    the window alone. *)
Theorem transforms_read_window :
  (∀ wave : list sample,
      Z.of_nat (length (fix_length 44100 wave)) = 1984500%Z
      ∧ fix_length 44100 wave
        = take (Z.to_nat 1984500) wave
          ++ replicate (Z.to_nat 1984500 - length wave) zero
      ∧ fix_length 44100 wave
        = fix_length 44100 (take (Z.to_nat 1984500) wave)
      ∧ (∀ i, (Z.to_nat 1984500 ≤ i)%nat →
              fix_length 44100 wave !! i = None))
  ∧ (∀ e path, ∃ new,
        env_trace (run (Predictor_features path) e).2 = env_trace e ++ new
        ∧ ∀ wave sr,
            librosa_load (env_files e) path (Some 44100%Z) = Ok (wave, sr) →
            sr = 44100%Z
            ∧ Forall (transform_on (fix_length 44100 wave)) new)
  ∧ (∀ e path wave sr,
        librosa_load (env_files e) path (Some 44100%Z) = Ok (wave, sr) →
        (run (Predictor_features path) e).1
        = let y := fix_length 44100 wave in
          match mfcc y 44100 20 2048 441 (Some 1102%Z) with
          | Raise ex => Raise ex
          | Ok m1 =>
              match chroma_stft y 44100 2048 441 with
              | Raise ex => Raise ex
              | Ok m2 =>
                  match spectral_contrast y 44100 2048 441 with
                  | Raise ex => Raise ex
                  | Ok m3 => np_concatenate [m1; m2; m3]
                  end
              end
          end).
Proof.
  split; [|split].
  3:{ intros e path wave sr Hload.
      pose proof (load_sr _ _ _ _ _ Hload) as ->.
      by rewrite Predictor_features_outcome, Hload. }
  - intros wave. split; [|split; [|split]].
    + by rewrite fix_length_length.
    + by rewrite fix_length_spec.
    + by rewrite (fix_length_take 44100).
    + intros i Hi. by apply fix_length_beyond.
  - intros e path.
    destruct (Predictor_features_trace e path) as (new & Htrace & Hnew).
    exists new. split; [done|]. intros wave sr Hload.
    pose proof (load_sr _ _ _ _ _ Hload) as ->. split; [done|]. eauto.
Qed.

(** C5. Whenever [Predictor.extract_features] returns, its descriptor
    has exactly 39 channels, whatever the file holds; and it does
    return whenever the file decodes and the three transforms succeed:
    the descriptor is then the 20 cepstral rows, followed by the 12
    chroma rows, followed by the 7 spectral-contrast rows. *)
Theorem descriptor_has_39_channels :
  (∀ e path m e',
      run (Predictor_features path) e = (Ok m, e') → nrows m = 39%nat)
  ∧ (∀ e path wave sr m1 m2 m3,
        librosa_load (env_files e) path (Some 44100%Z) = Ok (wave, sr) →
        mfcc (fix_length sr wave) sr 20 2048 (hop_length sr)
             (Some (win_length sr)) = Ok m1 →
        chroma_stft (fix_length sr wave) sr 2048 (hop_length sr) = Ok m2 →
        spectral_contrast (fix_length sr wave) sr 2048 (hop_length sr)
          = Ok m3 →
        (run (Predictor_features path) e).1 = Ok (m1 ++ m2 ++ m3)
        ∧ (run (Predictor_extract_features path) e).1
          = Ok (to_tensor (m1 ++ m2 ++ m3))
        ∧ nrows m1 = 20%nat ∧ nrows m2 = 12%nat ∧ nrows m3 = 7%nat
        ∧ nrows (m1 ++ m2 ++ m3) = 39%nat).
Proof.
  split.
  - apply Predictor_features_rows.
  - intros e path wave sr m1 m2 m3 Hload H1 H2 H3.
    destruct (frames_aligned _ _ _ _ _ _ _ _ _ H1 H2 H3) as [Hc2 Hc3].
    pose proof (np_concatenate_aligned m1 m2 m3 Hc2 Hc3) as Hcat.
    pose proof (Predictor_features_total e path _ _ _ _ _ _
                  Hload H1 H2 H3 Hcat) as Hrun.
    destruct (descriptor_rows _ _ _ _ _ _ _ H1 H2 H3) as (R1 & R2 & R3).
    rewrite Predictor_extract_features_run, Hrun. cbn [fst].
    repeat (split; [done|]).
    unfold nrows in *. rewrite !length_app. lia.
Qed.

End Laws.

End Features.

(** The window of a three-sample waveform, on the small instance. *)
Lemma transforms_read_window_witness :
  Z.of_nat (length (fix_length (L := Toy.libs) 44100 [3; 1; 4]%Z))
  = 1984500%Z.
Proof.
  exact (proj1 (proj1 (transforms_read_window (HL := toy_laws))
                  [3; 1; 4]%Z)).
Defined.

(** The descriptor of "song.mp3", on the small instance. *)
Lemma descriptor_has_39_channels_witness :
  ∃ m, (run (Predictor_features (L := Toy.libs) "song.mp3")
            (Toy.start 0)).1 = Ok m
       ∧ nrows m = 39%nat.
Proof.
  eexists.
  refine (let H := proj2 (descriptor_has_39_channels (HL := toy_laws))
                     (Toy.start 0) "song.mp3" [3; 1; 4]%Z 44100%Z
                     _ _ _ eq_refl eq_refl eq_refl eq_refl in
          conj (proj1 H) (proj2 (proj2 (proj2 (proj2 (proj2 H)))))).
Defined.

(** *** The regressors *)

Section Network.
Context {L : Libs}.

(** The module is in evaluation mode and [_to_linear] is cached. *)
Definition eval_mode (n : AudioNet) : bool :=
  negb (training n) && bool_decide (is_Some (_to_linear n)).

Definition predictor_eval_mode (p : Predictor) : bool :=
  eval_mode (valence_model p) && eval_mode (arousal_model p).

(** [m] leaves the trace alone. *)
Definition keeps_trace {X A} (m : M exn (env * X) A) : Prop :=
  ∀ s, env_trace (run m s).2.1 = env_trace s.1.

Lemma keeps_trace_bind {X A B} (m : M exn (env * X) A)
    (k : A → M exn (env * X) B) :
  keeps_trace m → (∀ a, keeps_trace (k a)) → keeps_trace (m ≫= k).
Proof.
  intros Hm Hk s. rewrite run_bind. specialize (Hm s).
  destruct (run m s) as [[a|ex] s1]; [|done].
  by rewrite Hk.
Qed.

Lemma keeps_trace_ret {X A} (a : A) :
  keeps_trace (mret a : M exn (env * X) A).
Proof. by intros s. Qed.

Lemma keeps_trace_try {X A} (r : result exn A) :
  keeps_trace (try r : M exn (env * X) A).
Proof. by intros s. Qed.

Lemma keeps_trace_self {X} : keeps_trace (self : M exn (env * X) X).
Proof. by intros s. Qed.

Lemma keeps_trace_update_self {X} (f : X → X) :
  keeps_trace (update_self f).
Proof. by intros s. Qed.

Lemma keeps_trace_draw {X A} (f : rng → A * rng) :
  keeps_trace (in_env (draw f) : M exn (env * X) A).
Proof.
  intros [e x]. unfold in_env, zoom, draw, run. cbn [fst snd].
  by destruct (f (env_rng e)).
Qed.

Create HintDb trace discriminated.
#[local] Hint Resolve keeps_trace_ret keeps_trace_try keeps_trace_self
  keeps_trace_update_self keeps_trace_draw : trace.

Ltac keeps_trace_tac :=
  repeat first
    [ apply keeps_trace_bind; [|intros ?]
    | progress auto with trace
    | match goal with
      | |- keeps_trace (if ?b then _ else _) => destruct b
      | |- keeps_trace (match ?r with (_, _) => _ end) => destruct r
      | |- keeps_trace (match ?o with Some _ => _ | None => _ end) =>
          destruct o
      end ].

Lemma batch_norm_keeps_trace name x : keeps_trace (batch_norm name x).
Proof. unfold batch_norm. keeps_trace_tac. Qed.

Lemma conv_block_keeps_trace conv bn x : keeps_trace (conv_block conv bn x).
Proof.
  unfold conv_block. keeps_trace_tac; try apply batch_norm_keeps_trace.
Qed.

Lemma get_to_linear_keeps_trace : keeps_trace _get_to_linear.
Proof.
  unfold _get_to_linear, conv1, conv2.
  keeps_trace_tac; try apply conv_block_keeps_trace.
Qed.

Lemma forward_keeps_trace x : keeps_trace (forward x).
Proof.
  unfold forward, conv1, conv2, Attention_forward, drop.
  keeps_trace_tac;
    try first [apply conv_block_keeps_trace
              | apply get_to_linear_keeps_trace].
Qed.

(** In evaluation mode a forward pass is a function of the weights and
    of the input: it reads no random number and changes neither the
    environment nor the module. *)
Lemma forward_eval net x :
  eval_mode net = true →
  ∃ r, ∀ e, run (forward x) (e, net) = (r, (e, net)).
Proof.
  unfold eval_mode. intros [Htr [n Hn]%bool_decide_eq_true_1]%andb_prop.
  apply negb_true_iff in Htr.
  unfold forward, conv1, conv2, conv_block, batch_norm, _get_to_linear,
    Attention_forward, drop, run, mbind, M_bind, bind, mret, M_ret, ret,
    try, self.
  cbn [fst snd]. rewrite ?Htr, ?Hn.
  repeat match goal with
         | |- context [match ?r with Ok _ => _ | Raise _ => _ end] =>
             destruct r; cbn [fst snd]; rewrite ?Htr, ?Hn
         end;
    by eexists.
Qed.

Lemma run_in_env {X A} (m : M exn env A) e (x : X) :
  run (in_env m) (e, x) = match run m e with (r, e') => (r, (e', x)) end.
Proof. reflexivity. Qed.

Lemma set_get_model m p : set_model m (get_model m p) p = p.
Proof. by destruct p, m. Qed.

Lemma call_model_run m x e p :
  run (call_model m x) (e, p)
  = match run (forward x) (add_trace e [EvForward m x], get_model m p) with
    | (r, (e', n')) => (r, (e', set_model m n' p))
    end.
Proof.
  unfold call_model, in_env, zoom, log, modify, run, mbind, M_bind, bind,
    add_trace.
  cbn [fst snd].
  by destruct (forward x _) as [[?|?] [? ?]].
Qed.

Lemma call_model_trace m x e p :
  env_trace (run (call_model m x) (e, p)).2.1 = env_trace e ++ [EvForward m x].
Proof.
  rewrite call_model_run.
  pose proof (forward_keeps_trace x
                (add_trace e [EvForward m x], get_model m p)) as H.
  by destruct (run (forward x) _) as [r [e' n']].
Qed.

Lemma call_model_eval m x p :
  eval_mode (get_model m p) = true →
  ∃ r, ∀ e,
    run (call_model m x) (e, p) = (r, (add_trace e [EvForward m x], p)).
Proof.
  intros Hev. destruct (forward_eval _ x Hev) as [r Hr].
  exists r. intros e. by rewrite call_model_run, Hr, set_get_model.
Qed.

(** [Predictor.predict], stage by stage: the first exception raised by
    a stage is the outcome of the call. *)
Lemma predict_run e p path :
  run (predict path) (e, p)
  = match run (Predictor_extract_features path) e with
    | (Raise ex, e1) => (Raise ex, (e1, p))
    | (Ok x, e1) =>
        match run (call_model Valence x) (e1, p) with
        | (Raise ex, s2) => (Raise ex, s2)
        | (Ok tv, s2) =>
            match run (call_model Arousal x) s2 with
            | (Raise ex, s3) => (Raise ex, s3)
            | (Ok ta, s3) =>
                match item tv with
                | Raise ex => (Raise ex, s3)
                | Ok v =>
                    match item ta with
                    | Raise ex => (Raise ex, s3)
                    | Ok a => (Ok (v, a), s3)
                    end
                end
            end
        end
    end.
Proof.
  unfold predict. rewrite run_bind, run_in_env.
  destruct (run (Predictor_extract_features path) e) as [[x|ex] e1]; [|done].
  rewrite run_bind. destruct (run (call_model Valence x) _) as [[tv|?] s2];
    [|done].
  rewrite run_bind. destruct (run (call_model Arousal x) _) as [[ta|?] s3];
    [|done].
  rewrite run_bind, run_try. destruct (item tv); [|done].
  rewrite run_bind, run_try. by destruct (item ta).
Qed.

(** *** One extraction per prediction *)

Definition is_load (ev : event) : bool :=
  match ev with EvLoad _ => true | _ => false end.

Definition is_transform (ev : event) : bool :=
  match ev with EvTransform _ _ => true | _ => false end.

(** Number of file loads among the events. *)
Definition loads (evs : list event) : nat := length (List.filter is_load evs).

Lemma loads_app evs1 evs2 : loads (evs1 ++ evs2) = (loads evs1 + loads evs2)%nat.
Proof. unfold loads. by rewrite List.filter_app, length_app. Qed.

Lemma loads_transforms evs : Forall is_transform evs → loads evs = 0%nat.
Proof.
  unfold loads. induction 1 as [|ev evs Hev _ IH]; [done|].
  simpl. by destruct ev.
Qed.

(** An extraction logs one load, then transforms only. *)
Lemma Predictor_features_events e path :
  ∃ new,
    env_trace (run (Predictor_features path) e).2
    = env_trace e ++ EvLoad path :: new
    ∧ Forall is_transform new.
Proof.
  unfold Predictor_features, run, mbind, M_bind, bind, mret, M_ret, ret,
    try, log, modify, read_files.
  cbn [env_files env_rng env_trace].
  destruct (librosa_load _ _ _) as [[wave sr]|?];
    [destruct (mfcc _ _ _ _ _ _);
     [destruct (chroma_stft _ _ _ _);
      [destruct (spectral_contrast _ _ _ _)|]|]|];
    cbn [snd env_trace]; rewrite <- ?(assoc_L (++)); simpl;
    (eexists; split; [reflexivity|]); by repeat constructor.
Qed.

Lemma Predictor_extract_features_trace e path :
  env_trace (run (Predictor_extract_features path) e).2
  = env_trace (run (Predictor_features path) e).2.
Proof.
  rewrite Predictor_extract_features_run.
  by destruct (run (Predictor_features path) e) as [[?|?] ?].
Qed.

Lemma Predictor_extract_features_Ok e path x e' :
  run (Predictor_extract_features path) e = (Ok x, e') →
  ∃ y, env_trace e' = env_trace e ++ extraction_events path y.
Proof.
  rewrite Predictor_extract_features_run.
  destruct (run (Predictor_features path) e) as [[m|?] e1] eqn:Hrun; [|done].
  intros [= _ <-].
  apply Predictor_features_Ok in Hrun
    as (wave & sr & ? & ? & ? & _ & _ & _ & _ & _ & ->).
  by eexists.
Qed.

(** C9. A successful [Predictor.predict] makes the calls of one feature
    extraction (one load, the three transforms), then one forward pass
    of the valence regressor and one of the arousal regressor, both on
    the descriptor that extraction returned, and nothing else.  Whatever
    the outcome, a call loads the file exactly once and every forward
    pass it starts is on the descriptor of that one extraction. *)
Theorem predict_extracts_once :
  (∀ e p path r s',
      run (predict path) (e, p) = (Ok r, s') →
      ∃ y x,
        (run (Predictor_extract_features path) e).1 = Ok x
        ∧ env_trace s'.1
          = env_trace e ++ extraction_events path y
            ++ [EvForward Valence x; EvForward Arousal x])
  ∧ (∀ e p path, ∃ new,
        env_trace (run (predict path) (e, p)).2.1 = env_trace e ++ new
        ∧ loads new = 1%nat
        ∧ ∀ m x, EvForward m x ∈ new →
                 (run (Predictor_extract_features path) e).1 = Ok x).
Proof.
  split.
  - intros e p path r s'. rewrite predict_run.
    destruct (run (Predictor_extract_features path) e)
      as [[x|?] e1] eqn:Hx; [|done].
    apply Predictor_extract_features_Ok in Hx as [y Hy].
    pose proof (call_model_trace Valence x e1 p) as Hv.
    destruct (run (call_model Valence x) (e1, p))
      as [[tv|?] [e2 p2]]; [|done].
    pose proof (call_model_trace Arousal x e2 p2) as Ha.
    destruct (run (call_model Arousal x) (e2, p2))
      as [[ta|?] [e3 p3]]; [|done].
    destruct (item tv); [|done]. destruct (item ta); [|done].
    intros [= _ <-]. exists y, x. split; [done|].
    cbn [fst snd] in *. rewrite Ha, Hv, Hy.
    by rewrite <- !(assoc_L (++)).
  - intros e p path. rewrite predict_run.
    destruct (Predictor_features_events e path) as (new & Hnew & Htr).
    rewrite <- Predictor_extract_features_trace in Hnew.
    assert (loads (EvLoad path :: new) = 1%nat) as Hloads.
    { change (S (loads new) = 1%nat). by rewrite loads_transforms. }
    assert (∀ m x, EvForward m x ∉ EvLoad path :: new) as Hnone.
    { intros m x [?|Hin]%elem_of_cons; [done|].
      by apply (proj1 (Forall_forall _ _) Htr) in Hin. }
    destruct (run (Predictor_extract_features path) e) as [[x|?] e1].
    2:{ exists (EvLoad path :: new). cbn [fst snd] in *.
        split; [done|]. split; [done|]. intros m x Hin.
        by destruct (Hnone m x). }
    cbn [snd] in Hnew.
    pose proof (call_model_trace Valence x e1 p) as Hv.
    destruct (run (call_model Valence x) (e1, p)) as [rv [e2 p2]].
    cbn [fst snd] in Hv.
    assert (∀ evs m x',
               Forall (λ ev, ∃ m', ev = EvForward m' x) evs →
               EvForward m x' ∈ (EvLoad path :: new) ++ evs →
               x = x') as Hfw.
    { intros evs m x' Hevs [Hin|Hin]%elem_of_app.
      - by destruct (Hnone m x').
      - apply (proj1 (Forall_forall _ _) Hevs) in Hin as [m' ?].
        congruence. }
    destruct rv as [tv|?].
    2:{ exists ((EvLoad path :: new) ++ [EvForward Valence x]).
        cbn [fst snd]. rewrite Hv, Hnew. rewrite <- (assoc_L (++)).
        split; [done|]. split; [by rewrite loads_app, Hloads|].
        intros m x' Hin. f_equal.
        apply (Hfw [EvForward Valence x] m x'); [|done].
        repeat econstructor. }
    pose proof (call_model_trace Arousal x e2 p2) as Ha.
    destruct (run (call_model Arousal x) (e2, p2)) as [ra [e3 p3]].
    cbn [fst snd] in Ha.
    exists ((EvLoad path :: new)
            ++ [EvForward Valence x; EvForward Arousal x]).
    assert (env_trace e3
            = env_trace e ++ (EvLoad path :: new)
              ++ [EvForward Valence x; EvForward Arousal x]
            ∧ loads ((EvLoad path :: new)
                     ++ [EvForward Valence x; EvForward Arousal x]) = 1%nat
            ∧ ∀ m x',
                EvForward m x' ∈ (EvLoad path :: new)
                  ++ [EvForward Valence x; EvForward Arousal x] →
                (Ok x : result exn tensor) = Ok x') as Hgoal.
    { split; [|split].
      - rewrite Ha, Hv, Hnew. by rewrite <- !(assoc_L (++)).
      - by rewrite loads_app, Hloads.
      - intros m x' Hin. f_equal.
        apply (Hfw [EvForward Valence x; EvForward Arousal x] m x');
          [|done].
        repeat econstructor. }
    destruct ra as [ta|?]; [|exact Hgoal].
    destruct (item tv); [|exact Hgoal].
    destruct (item ta); exact Hgoal.
Qed.

(** *** Evaluation mode *)

(** The extraction reads the files only, and changes neither them nor
    the random generator. *)
Lemma Predictor_extract_features_reads_files e1 e2 path :
  env_files e1 = env_files e2 →
  (run (Predictor_extract_features path) e1).1
  = (run (Predictor_extract_features path) e2).1
  ∧ env_files (run (Predictor_extract_features path) e1).2 = env_files e1
  ∧ env_rng (run (Predictor_extract_features path) e1).2 = env_rng e1.
Proof.
  intros Hf.
  unfold Predictor_extract_features, Predictor_features, run, mbind, M_bind,
    bind, mret, M_ret, ret, try, log, modify, read_files.
  cbn [env_files env_rng env_trace]. rewrite Hf.
  destruct (librosa_load _ _ _) as [[wave sr]|?]; [|done].
  destruct (mfcc _ _ _ _ _ _); [|done].
  destruct (chroma_stft _ _ _ _); [|done].
  destruct (spectral_contrast _ _ _ _); [|done].
  by destruct (np_concatenate _).
Qed.

Lemma eval_mode_eval net :
  is_Some (_to_linear net) → eval_mode (eval net) = true.
Proof.
  intros H. unfold eval_mode, eval. simpl. by apply bool_decide_eq_true_2.
Qed.

(** A constructed [AudioNet] has its [_to_linear] cached. *)
Lemma AudioNet_init_cached params e net e' :
  run (AudioNet_init params) e = (Ok net, e') → is_Some (_to_linear net).
Proof.
  unfold AudioNet_init, new, _get_to_linear, conv1, conv2, conv_block,
    batch_norm, in_env, zoom, draw, update_self, modify, self, try, run,
    mbind, M_bind, bind, mret, M_ret, ret.
  cbn [fst snd env_files env_rng env_trace training state _to_linear].
  destruct (init_conv _ _ _ _) as [w g].
  cbn [fst snd env_files env_rng env_trace training state _to_linear].
  destruct (randn _ _) as [x0 g0].
  cbn [fst snd env_files env_rng env_trace training state _to_linear].
  destruct (conv1d _ _ _) as [x1|?]; [|done].
  destruct (batch_norm_train _ _ _) as [y1 w1].
  cbn [fst snd env_files env_rng env_trace training state _to_linear
       set_state].
  destruct (conv1d _ _ _) as [x2|?]; [|done].
  destruct (batch_norm_train _ _ _) as [y2 w2].
  cbn [fst snd env_files env_rng env_trace training state _to_linear
       set_state set_to_linear set_feature_dim].
  destruct (init_head _ _ _ _ _ _) as [w3 g3].
  intros [= <- _]. by eexists.
Qed.

Lemma load_model_eval_mode path params e net e' :
  run (load_model path params) e = (Ok net, e') → eval_mode net = true.
Proof.
  unfold load_model. rewrite run_bind.
  destruct (run (AudioNet_init params) e) as [[model|?] e1] eqn:Hinit;
    [|done].
  apply AudioNet_init_cached in Hinit.
  rewrite run_bind. destruct (run (read_files _) e1) as [[sd|?] e2]; [|done].
  rewrite run_bind, run_try.
  destruct (load_state_dict _ _) as [w|?]; [|done].
  rewrite run_ret. intros [= <- _].
  apply eval_mode_eval. by destruct model.
Qed.

(** In evaluation mode the outcome of [predict] depends on the files
    only, and the call changes neither the files, nor the generator,
    nor the predictor. *)
Lemma predict_eval_mode_outcome p :
  predictor_eval_mode p = true →
  ∀ path e1 e2,
    env_files e1 = env_files e2 →
    (run (predict path) (e1, p)).1 = (run (predict path) (e2, p)).1
    ∧ (run (predict path) (e1, p)).2.2 = p
    ∧ env_rng (run (predict path) (e1, p)).2.1 = env_rng e1
    ∧ env_files (run (predict path) (e1, p)).2.1 = env_files e1.
Proof.
  intros [Hv Ha]%andb_prop path e1 e2 Hf.
  rewrite !predict_run.
  destruct (Predictor_extract_features_reads_files e1 e2 path Hf)
    as (Hx & Hfiles & Hrng).
  destruct (run (Predictor_extract_features path) e1) as [r1 e1'].
  destruct (run (Predictor_extract_features path) e2) as [r2 e2'].
  cbn [fst snd] in Hx, Hfiles, Hrng. subst r2.
  destruct r1 as [x|?]; [|done].
  destruct (call_model_eval Valence x p Hv) as [rv Hrv].
  destruct (call_model_eval Arousal x p Ha) as [ra Hra].
  rewrite !Hrv. destruct rv as [tv|?]; [|done].
  rewrite !Hra. destruct ra as [ta|?]; [|done].
  destruct (item tv); [|done]. by destruct (item ta).
Qed.

(** C8. [Predictor.load_model] returns its model in evaluation mode, so
    both regressors of a constructed [Predictor] are in evaluation
    mode.  For such a predictor, the outcome of [predict] on a path
    depends on the files only (not on the state of the random
    generator, nor on earlier calls); the call leaves the files, the
    generator and both models as they were; hence a second call on the
    same path returns the same valence/arousal pair (or raises the same
    exception) as the first. *)
Theorem predict_deterministic :
  (∀ e path params net e',
      run (load_model path params) e = (Ok net, e') → eval_mode net = true)
  ∧ (∀ e mpv mpa p e',
        run (Predictor_init mpv mpa) e = (Ok p, e') →
        predictor_eval_mode p = true)
  ∧ (∀ p, predictor_eval_mode p = true →
          ∀ path e1 e2,
            env_files e1 = env_files e2 →
            (run (predict path) (e1, p)).1 = (run (predict path) (e2, p)).1
            ∧ (run (predict path) (e1, p)).2.2 = p
            ∧ env_rng (run (predict path) (e1, p)).2.1 = env_rng e1
            ∧ env_files (run (predict path) (e1, p)).2.1 = env_files e1)
  ∧ (∀ p, predictor_eval_mode p = true →
          ∀ path e,
            (run (predict path) (run (predict path) (e, p)).2).1
            = (run (predict path) (e, p)).1).
Proof.
  pose proof predict_eval_mode_outcome as Hdet.
  split; [|split; [|split]].
  - intros e path params net e'. apply load_model_eval_mode.
  - intros e mpv mpa p e'. unfold Predictor_init. rewrite run_bind.
    destruct (run (load_model mpv valence_params) e)
      as [[vm|?] e1] eqn:Hv; [|done].
    rewrite run_bind.
    destruct (run (load_model mpa arousal_params) e1)
      as [[am|?] e2] eqn:Ha; [|done].
    rewrite run_ret. intros [= <- _].
    apply load_model_eval_mode in Hv, Ha.
    unfold predictor_eval_mode. simpl. by rewrite Hv, Ha.
  - exact Hdet.
  - intros p Hp path e.
    destruct (Hdet p Hp path e e eq_refl) as (_ & Hp' & _ & Hfiles).
    destruct (run (predict path) (e, p)) as [r [e' p']] eqn:Hrun.
    cbn [fst snd] in *. subst p'.
    destruct (Hdet p Hp path e' e Hfiles) as (-> & _).
    by rewrite Hrun.
Qed.

(** *** Exceptions *)




End Network.


(** *** The names of the module *)



Section Names.
Context {L : Libs} {HL : LibsLaws L}.

Lemma fold_stats_length (rows : matrix sample) (init : list sample) :
  length (fold_left (λ features mfcc, features ++ stats [mfcc]) rows init)
  = (length init + 2 * length rows)%nat.
Proof.
  revert init. induction rows as [|r rows IH]; intros init; simpl; [lia|].
  rewrite IH, length_app. simpl. lia.
Qed.

(** The genre extractor returns 57 numbers. *)
Lemma extract_features_2_length e path v e' :
  run (extract_features_2 path) e = (Ok v, e') → length v = 57%nat.
Proof.
  unfold extract_features_2, run, mbind, M_bind, bind, mret, M_ret, ret,
    try, read_files.
  destruct (librosa_load _ _ _) as [[y sr]|?]; [|done].
  destruct (chroma_stft _ _ _ _); [|done].
  repeat (destruct (librosa_other _ _ _); [|done]).
  destruct (mfcc _ _ _ _ _ _) as [mfccs|?] eqn:Hm; [|done].
  intros [= <- _]. apply mfcc_rows in Hm.
  rewrite fold_stats_length. unfold nrows in Hm. simpl. lia.
Qed.


End Names.


(** *** Runs on the small instance *)

Definition toy_net (num_filters2 num_hidden w : Z) (training : bool)
  : AudioNet (L := Toy.libs) :=
  mkAudioNet (L := Toy.libs) 39 32 num_filters2 num_hidden 1 1 w training
             (Some 1%Z).

(** The predictor [Predictor("valence.pth", "arousal.pth")]. *)
Definition toy_predictor : Predictor (L := Toy.libs) :=
  mkPredictor (L := Toy.libs) "valence.pth" "arousal.pth"
              (toy_net 64 64 2 false) (toy_net 32 128 5 false).

(** The same predictor with both models put back in training mode. *)
Definition toy_training_predictor : Predictor (L := Toy.libs) :=
  mkPredictor (L := Toy.libs) "valence.pth" "arousal.pth"
              (toy_net 64 64 2 true) (toy_net 32 128 5 true).

Lemma toy_predictor_constructed :
  (run (Predictor_init (L := Toy.libs) "valence.pth" "arousal.pth")
       (Toy.start 0)).1 = Ok toy_predictor
  ∧ predictor_eval_mode toy_predictor = true.
Proof. split; by vm_compute. Qed.

Lemma toy_predict_song seed :
  (run (predict (L := Toy.libs) "song.mp3") (Toy.start seed, toy_predictor)).1
  = Ok (823%Z, 1531%Z).
Proof.
  destruct (predict_eval_mode_outcome toy_predictor eq_refl "song.mp3"
              (Toy.start seed) (Toy.start 0) eq_refl) as [-> _].
  by vm_compute.
Qed.

Lemma toy_predict_song_run :
  run (predict (L := Toy.libs) "song.mp3") (Toy.start 0, toy_predictor)
  = (Ok (823%Z, 1531%Z),
     (run (predict (L := Toy.libs) "song.mp3")
          (Toy.start 0, toy_predictor)).2).
Proof. rewrite <- (toy_predict_song 0). apply surjective_pairing. Qed.

(** In training mode the outcome follows the random generator: dropout
    draws a mask. *)
Lemma toy_training_mode_is_random :
  (run (predict (L := Toy.libs) "song.mp3")
       (Toy.start 1, toy_training_predictor)).1
  ≠ (run (predict (L := Toy.libs) "song.mp3")
         (Toy.start 2, toy_training_predictor)).1.
Proof. by vm_compute. Qed.

Lemma toy_predict_missing_file :
  (run (predict (L := Toy.libs) "nofile") (Toy.start 0, toy_predictor)).1
  = Raise "FileNotFoundError".
Proof. by vm_compute. Qed.

Lemma toy_predict_empty_file :
  (run (predict (L := Toy.libs) "empty.wav") (Toy.start 0, toy_predictor)).1
  = Ok (472%Z, 1180%Z).
Proof. by vm_compute. Qed.


(** Two calls in a row on "song.mp3". *)
Lemma predict_deterministic_witness :
  (run (predict (L := Toy.libs) "song.mp3")
       (run (predict (L := Toy.libs) "song.mp3")
            (Toy.start 0, toy_predictor)).2).1
  = (run (predict (L := Toy.libs) "song.mp3")
         (Toy.start 0, toy_predictor)).1.
Proof.
  exact (proj2 (proj2 (proj2 predict_deterministic))
           toy_predictor eq_refl "song.mp3" (Toy.start 0)).
Defined.

(** The calls of one prediction on "song.mp3". *)
Lemma predict_extracts_once_witness :
  ∃ y x,
    (run (Predictor_extract_features (L := Toy.libs) "song.mp3")
         (Toy.start 0)).1 = Ok x
    ∧ env_trace (run (predict (L := Toy.libs) "song.mp3")
                     (Toy.start 0, toy_predictor)).2.1
      = [] ++ extraction_events "song.mp3" y
        ++ [EvForward Valence x; EvForward Arousal x].
Proof.
  exact (proj1 predict_extracts_once (Toy.start 0) toy_predictor "song.mp3"
           _ _ toy_predict_song_run).
Defined.

(** *** Further properties of the window and of the extractors *)

Section MoreFeatures.
Context {L : Libs}.

(** X5. For a non-negative sample rate, windowing a waveform that is
    already windowed changes nothing; the window keeps every input
    sample that lies below [sr * 45], in its place, and holds zero at
    every later index below [sr * 45]. *)
Theorem fix_length_window (sr : Z) (wave : list sample) :
  (0 ≤ sr)%Z →
  fix_length sr (fix_length sr wave) = fix_length sr wave
  ∧ (∀ i, (i < length wave)%nat → (i < Z.to_nat (sr * 45))%nat →
          fix_length sr wave !! i = wave !! i)
  ∧ (∀ i, (length wave ≤ i)%nat → (i < Z.to_nat (sr * 45))%nat →
          fix_length sr wave !! i = Some zero).
Proof.
  intros Hsr. split; [|split].
  - pose proof (fix_length_length sr wave Hsr) as Hlen.
    rewrite (fix_length_spec sr (fix_length sr wave)) by done.
    replace (Z.to_nat (sr * 45) - length (fix_length sr wave))%nat
      with 0%nat by lia.
    rewrite app_nil_r. apply take_ge. lia.
  - intros i Hi HN. rewrite fix_length_spec by done.
    rewrite lookup_app_l by (rewrite length_take; lia).
    by apply lookup_take_lt.
  - intros i Hi HN. rewrite fix_length_spec by done.
    rewrite lookup_app_r by (rewrite length_take; lia).
    apply lookup_replicate_2. rewrite length_take. lia.
Qed.

Lemma extract_features_1_outcome e path sample_rate :
  (run (extract_features_1 path sample_rate) e).1
  = match librosa_load (env_files e) path (Some sample_rate) with
    | Raise ex => Raise ex
    | Ok (wave, sr) =>
        let y := fix_length sr wave in
        match mfcc y sr 20 2048 (hop_length sr) (Some (win_length sr)) with
        | Raise ex => Raise ex
        | Ok m1 =>
            match chroma_stft y sr 2048 (hop_length sr) with
            | Raise ex => Raise ex
            | Ok m2 =>
                match spectral_contrast y sr 2048 (hop_length sr) with
                | Raise ex => Raise ex
                | Ok m3 => np_concatenate [m1; m2; m3]
                end
            end
        end
    end.
Proof.
  unfold extract_features_1, run, mbind, M_bind, bind, mret, M_ret, ret,
    try, log, modify, read_files.
  cbn [env_files env_rng env_trace].
  destruct (librosa_load _ _ _) as [[wave sr]|?]; [|done].
  cbn zeta.
  destruct (mfcc _ _ _ _ _ _); [|done].
  destruct (chroma_stft _ _ _ _); [|done].
  by destruct (spectral_contrast _ _ _ _).
Qed.

Context {HL : LibsLaws L}.

(** X6. The module-level [extract_features(audio_path, sample_rate)] of
    line 83, at any non-negative sample rate: the three transforms run
    on a window of exactly [sample_rate * 45] samples cut from the
    decoded waveform, with hop [int(sample_rate * 0.01)]; whenever it
    returns, the array has 39 rows; and [Predictor.extract_features] is
    this function at 44100 Hz followed by the conversion to a tensor. *)
Theorem extract_features_1_window e path sample_rate :
  (0 ≤ sample_rate)%Z →
  (∀ wave sr,
      librosa_load (env_files e) path (Some sample_rate) = Ok (wave, sr) →
      Z.of_nat (length (fix_length sample_rate wave)) = (sample_rate * 45)%Z
      ∧ (run (extract_features_1 path sample_rate) e).1
        = let y := fix_length sample_rate wave in
          match mfcc y sample_rate 20 2048 (hop_length sample_rate)
                     (Some (win_length sample_rate)) with
          | Raise ex => Raise ex
          | Ok m1 =>
              match chroma_stft y sample_rate 2048
                                (hop_length sample_rate) with
              | Raise ex => Raise ex
              | Ok m2 =>
                  match spectral_contrast y sample_rate 2048
                                          (hop_length sample_rate) with
                  | Raise ex => Raise ex
                  | Ok m3 => np_concatenate [m1; m2; m3]
                  end
              end
          end)
  ∧ (∀ m, (run (extract_features_1 path sample_rate) e).1 = Ok m →
          nrows m = 39%nat)
  ∧ run (Predictor_extract_features path) e
    = run (m ← extract_features_1 path 44100; mret (to_tensor m)) e.
Proof.
  intros Hsr. split; [|split].
  - intros wave sr Hload. pose proof (load_sr _ _ _ _ _ Hload) as ->.
    split; [by apply fix_length_length|].
    by rewrite extract_features_1_outcome, Hload.
  - intros m. rewrite extract_features_1_outcome.
    destruct (librosa_load _ _ _) as [[wave sr]|?]; [|done]. cbn zeta.
    destruct (mfcc _ _ _ _ _ _) as [m1|?] eqn:H1; [|done].
    destruct (chroma_stft _ _ _ _) as [m2|?] eqn:H2; [|done].
    destruct (spectral_contrast _ _ _ _) as [m3|?] eqn:H3; [|done].
    intros Hcat%np_concatenate_rows. rewrite Hcat. simpl.
    by destruct (descriptor_rows _ _ _ _ _ _ _ H1 H2 H3) as (-> & -> & ->).
  - reflexivity.
Qed.

End MoreFeatures.

Lemma fix_length_window_witness :
  fix_length (L := Toy.libs) 1 (fix_length (L := Toy.libs) 1 [3; 1; 4]%Z)
  = fix_length (L := Toy.libs) 1 [3; 1; 4]%Z.
Proof.
  exact (proj1 (fix_length_window (L := Toy.libs) 1 [3; 1; 4]%Z
                  ltac:(lia))).
Defined.

Lemma extract_features_1_window_witness :
  run (Predictor_extract_features (L := Toy.libs) "song.mp3") (Toy.start 0)
  = run (m ← extract_features_1 (L := Toy.libs) "song.mp3" 44100;
         mret (to_tensor m)) (Toy.start 0).
Proof.
  exact (proj2 (proj2 (extract_features_1_window (HL := toy_laws)
                         (Toy.start 0) "song.mp3" 44100 ltac:(lia)))).
Defined.

(** *** Further properties of the regressors *)

Section MoreNetwork.
Context {L : Libs}.

Lemma get_to_linear_cached_run e net n :
  _to_linear net = Some n → run _get_to_linear (e, net) = (Ok n, (e, net)).
Proof.
  intros Hn. unfold _get_to_linear, run, mbind, M_bind, bind, self.
  cbn [fst snd]. by rewrite Hn.
Qed.

Lemma get_to_linear_sets s n s' :
  run _get_to_linear s = (Ok n, s') → _to_linear s'.2 = Some n.
Proof.
  destruct s as [e net].
  destruct (_to_linear net) as [k|] eqn:Hk.
  { rewrite (get_to_linear_cached_run e net k Hk). by intros [= <- <-]. }
  unfold _get_to_linear, conv1, conv2, conv_block, batch_norm, in_env, zoom,
    draw, update_self, modify, self, try, run, mbind, M_bind, bind, mret,
    M_ret, ret.
  cbn [fst snd]. rewrite Hk.
  destruct (randn _ _) as [x0 g0]. cbn [fst snd].
  destruct (conv1d _ _ _) as [x1|?]; [|done].
  destruct (training net) eqn:Htr.
  - destruct (batch_norm_train _ _ _) as [y1 w1]. cbn [fst snd state].
    destruct (conv1d _ _ _) as [x2|?]; [|done].
    cbn [training set_state]. rewrite Htr.
    destruct (batch_norm_train _ _ _) as [y2 w2]. cbn [fst snd].
    by intros [= <- <-].
  - cbn [fst snd]. destruct (conv1d _ _ _) as [x2|?]; [|done].
    rewrite Htr. cbn [fst snd]. by intros [= <- <-].
Qed.

(** X7. [_get_to_linear] computes its value once: after a call that
    returned [n], the attribute [_to_linear] holds [n], and every later
    call returns [n] again without drawing a random tensor, running a
    convolution or changing anything. *)
Theorem get_to_linear_computed_once s n s' :
  run _get_to_linear s = (Ok n, s') →
  _to_linear s'.2 = Some n
  ∧ run _get_to_linear s' = (Ok n, s')
  ∧ ∀ e, run _get_to_linear (e, s'.2) = (Ok n, (e, s'.2)).
Proof.
  intros Hrun. apply get_to_linear_sets in Hrun as Hn.
  split; [done|]. destruct s' as [e' net']. split.
  - by apply get_to_linear_cached_run.
  - intros e. by apply get_to_linear_cached_run.
Qed.

(** What a method of [AudioNet] may change: nothing of the
    configuration, of the mode flag or of the files; a cached
    [_to_linear] stays; outside training mode the parameters stay. *)
Definition module_kept (s s' : env * AudioNet) : Prop :=
  in_ch s'.2 = in_ch s.2
  ∧ num_filters1 s'.2 = num_filters1 s.2
  ∧ num_filters2 s'.2 = num_filters2 s.2
  ∧ num_hidden s'.2 = num_hidden s.2
  ∧ out_size s'.2 = out_size s.2
  ∧ feature_dim s'.2 = feature_dim s.2
  ∧ training s'.2 = training s.2
  ∧ (∀ k, _to_linear s.2 = Some k → _to_linear s'.2 = Some k)
  ∧ (training s.2 = false → state s'.2 = state s.2)
  ∧ env_files s'.1 = env_files s.1
  ∧ env_trace s'.1 = env_trace s.1.

Definition keeps_module {A} (m : M exn (env * AudioNet) A) : Prop :=
  ∀ s, module_kept s (run m s).2.

Lemma module_kept_refl s : module_kept s s.
Proof. by repeat split. Qed.

Lemma module_kept_trans s1 s2 s3 :
  module_kept s1 s2 → module_kept s2 s3 → module_kept s1 s3.
Proof.
  unfold module_kept.
  intros (?&?&?&?&?&?&Ht&Hl&Hs&?&?) (?&?&?&?&?&?&Ht'&Hl'&Hs'&?&?).
  repeat split; try congruence.
  - intros k Hk. by apply Hl', Hl.
  - intros Hf. rewrite Hs' by congruence. by apply Hs.
Qed.

Lemma keeps_module_bind {A B} (m : M exn (env * AudioNet) A)
    (k : A → M exn (env * AudioNet) B) :
  keeps_module m → (∀ a, keeps_module (k a)) → keeps_module (m ≫= k).
Proof.
  intros Hm Hk s. rewrite run_bind. specialize (Hm s).
  destruct (run m s) as [[a|ex] s1]; [|done].
  eapply module_kept_trans; [exact Hm|apply Hk].
Qed.

Lemma keeps_module_ret {A} (a : A) :
  keeps_module (mret a : M exn (env * AudioNet) A).
Proof. intros s. apply module_kept_refl. Qed.

Lemma keeps_module_try {A} (r : result exn A) :
  keeps_module (try r : M exn (env * AudioNet) A).
Proof. intros s. apply module_kept_refl. Qed.

Lemma keeps_module_self : keeps_module (self : M exn (env * AudioNet) _).
Proof. intros s. apply module_kept_refl. Qed.

Lemma keeps_module_draw {A} (f : rng → A * rng) :
  keeps_module (in_env (draw f) : M exn (env * AudioNet) A).
Proof.
  intros [e net]. unfold in_env, zoom, draw, run. cbn [fst snd].
  destruct (f (env_rng e)). by repeat split.
Qed.

Lemma keeps_module_batch_norm name x : keeps_module (batch_norm name x).
Proof.
  intros [e net]. unfold batch_norm, run, mbind, M_bind, bind, self,
    update_self, modify, mret, M_ret, ret.
  cbn [fst snd]. destruct (training net) eqn:Htr.
  - destruct (batch_norm_train _ _ _) as [y w]. cbn [fst snd].
    repeat split; try done. cbn. congruence.
  - cbn [fst snd]. apply module_kept_refl.
Qed.

Lemma keeps_module_conv_block conv bn x : keeps_module (conv_block conv bn x).
Proof.
  unfold conv_block.
  apply keeps_module_bind; [apply keeps_module_self|intros net].
  apply keeps_module_bind; [apply keeps_module_try|intros x1].
  apply keeps_module_bind; [apply keeps_module_batch_norm|intros x2].
  apply keeps_module_ret.
Qed.

Lemma keeps_module_get_to_linear : keeps_module _get_to_linear.
Proof.
  intros [e net].
  destruct (_to_linear net) as [k|] eqn:Hk.
  { rewrite (get_to_linear_cached_run e net k Hk). apply module_kept_refl. }
  assert (∀ k, _to_linear net = Some k → False) as Hnone by (by rewrite Hk).
  unfold _get_to_linear, conv1, conv2, conv_block, batch_norm, in_env, zoom,
    draw, update_self, modify, self, try, run, mbind, M_bind, bind, mret,
    M_ret, ret.
  cbn [fst snd]. rewrite Hk.
  destruct (randn _ _) as [x0 g0]. cbn [fst snd].
  destruct (conv1d _ _ _) as [x1|?];
    [destruct (training net) eqn:Htr;
     [destruct (batch_norm_train _ _ _) as [y1 w1]; cbn [fst snd state];
      destruct (conv1d _ _ _) as [x2|?];
      [cbn [training set_state]; rewrite Htr;
       destruct (batch_norm_train _ _ _) as [y2 w2]|]
     |cbn [fst snd]; destruct (conv1d _ _ _) as [x2|?]; [rewrite Htr|]]|];
    cbn [fst snd]; unfold module_kept; cbn;
    repeat split;
    first [done | congruence | intros k ?; by destruct (Hnone k)].
Qed.

Lemma keeps_module_forward x : keeps_module (forward x).
Proof.
  unfold forward, conv1, conv2, Attention_forward, drop.
  repeat first
    [ apply keeps_module_conv_block
    | apply keeps_module_get_to_linear
    | apply keeps_module_self
    | apply keeps_module_try
    | apply keeps_module_ret
    | apply keeps_module_draw
    | apply keeps_module_bind; [|intros ?]
    | match goal with
      | |- keeps_module (if ?b then _ else _) => destruct b
      end ].
Qed.

(** X8. A forward pass of [AudioNet], in either mode and whether it
    returns or raises, leaves the module's configuration, its mode flag,
    a cached [_to_linear], the files and the call trace as they were;
    the parameters can change only in training mode (the batch-norm
    running statistics).  In evaluation mode with [_to_linear] cached
    the pass changes nothing at all, the random generator included. *)
Theorem forward_keeps_module x s :
  module_kept s (run (forward x) s).2
  ∧ (eval_mode s.2 = true → (run (forward x) s).2 = s).
Proof.
  split; [apply keeps_module_forward|].
  intros Hev. destruct s as [e net].
  destruct (forward_eval net x Hev) as [r Hr]. by rewrite Hr.
Qed.

(** X9. The module-level [predict(model, features)] puts the model in
    evaluation mode and leaves it there, whatever its mode was and
    whether the forward pass returns or raises; when [_to_linear] is
    cached its outcome does not depend on the random generator, and the
    only change it makes is the mode flag. *)
Theorem predict_1_sets_eval_mode features :
  (∀ s, training (run (predict_1 features) s).2.2 = false)
  ∧ (∀ net, is_Some (_to_linear net) →
            ∃ r, ∀ e, run (predict_1 features) (e, net) = (r, (e, eval net))).
Proof.
  split.
  - intros [e net].
    assert (run (predict_1 features) (e, net)
            = run (forward (to_tensor features)) (e, eval net)) as ->
      by reflexivity.
    destruct (keeps_module_forward (to_tensor features) (e, eval net))
      as (_&_&_&_&_&_&Htr&_).
    by rewrite Htr.
  - intros net Hn.
    destruct (forward_eval (eval net) (to_tensor features)
                (eval_mode_eval net Hn)) as [r Hr].
    exists r. intros e. rewrite <- Hr. reflexivity.
Qed.

(** The other regressor of a predictor. *)
Definition other_model (m : model_ref) : model_ref :=
  match m with Valence => Arousal | Arousal => Valence end.

(** X10. Running one regressor of a [Predictor] never touches the
    other one, in either mode and whether the pass returns or raises:
    the other model and the two model paths are unchanged, and the
    trace grows by exactly the one forward event. *)
Theorem call_model_frame m x e p :
  get_model (other_model m) (run (call_model m x) (e, p)).2.2
  = get_model (other_model m) p
  ∧ model_path_valence (run (call_model m x) (e, p)).2.2
    = model_path_valence p
  ∧ model_path_arousal (run (call_model m x) (e, p)).2.2
    = model_path_arousal p
  ∧ env_trace (run (call_model m x) (e, p)).2.1
    = env_trace e ++ [EvForward m x]
  ∧ env_files (run (call_model m x) (e, p)).2.1 = env_files e.
Proof.
  pose proof (call_model_trace m x e p) as Htrace.
  rewrite call_model_run in *.
  destruct (keeps_module_forward x
              (add_trace e [EvForward m x], get_model m p))
    as (_&_&_&_&_&_&_&_&_&Hfiles&_).
  destruct (run (forward x) _) as [r [e' n']]. cbn [fst snd] in *.
  by destruct m, p.
Qed.

(** *** Construction *)

Lemma AudioNet_init_Ok params e net e' :
  run (AudioNet_init params) e = (Ok net, e') →
  in_ch net = default 1%Z (params !! "in_ch")
  ∧ num_filters1 net = default 32%Z (params !! "num_filters1")
  ∧ num_filters2 net = default 64%Z (params !! "num_filters2")
  ∧ num_hidden net = default 128%Z (params !! "num_hidden")
  ∧ out_size net = default 1%Z (params !! "out_size")
  ∧ training net = true
  ∧ _to_linear net = Some (feature_dim net)
  ∧ env_files e' = env_files e
  ∧ env_trace e' = env_trace e.
Proof.
  unfold AudioNet_init, new, _get_to_linear, conv1, conv2, conv_block,
    batch_norm, in_env, zoom, draw, update_self, modify, self, try, run,
    mbind, M_bind, bind, mret, M_ret, ret.
  cbn [fst snd env_files env_rng env_trace training state _to_linear].
  destruct (init_conv _ _ _ _) as [w g].
  cbn [fst snd env_files env_rng env_trace training state _to_linear].
  destruct (randn _ _) as [x0 g0].
  cbn [fst snd env_files env_rng env_trace training state _to_linear].
  destruct (conv1d _ _ _) as [x1|?]; [|done].
  destruct (batch_norm_train _ _ _) as [y1 w1].
  cbn [fst snd env_files env_rng env_trace training state _to_linear
       set_state].
  destruct (conv1d _ _ _) as [x2|?]; [|done].
  destruct (batch_norm_train _ _ _) as [y2 w2].
  cbn [fst snd env_files env_rng env_trace training state _to_linear
       set_state set_to_linear set_feature_dim].
  destruct (init_head _ _ _ _ _ _) as [w3 g3].
  by intros [= <- <-].
Qed.

(** X11. A constructed [AudioNet] takes each hyperparameter from
    [params_dict] and, for a missing key, the default of the source
    (1, 32, 64, 128, 1); it is in training mode; its [_to_linear] is
    cached and equals the [feature_dim] of its attention module, so
    [_get_to_linear] on it returns that value and changes nothing; and
    construction neither changes the files nor logs a call. *)
Theorem AudioNet_init_result params e net e' :
  run (AudioNet_init params) e = (Ok net, e') →
  in_ch net = default 1%Z (params !! "in_ch")
  ∧ num_filters1 net = default 32%Z (params !! "num_filters1")
  ∧ num_filters2 net = default 64%Z (params !! "num_filters2")
  ∧ num_hidden net = default 128%Z (params !! "num_hidden")
  ∧ out_size net = default 1%Z (params !! "out_size")
  ∧ training net = true
  ∧ _to_linear net = Some (feature_dim net)
  ∧ (∀ e1, run _get_to_linear (e1, net)
           = (Ok (feature_dim net), (e1, net)))
  ∧ env_files e' = env_files e
  ∧ env_trace e' = env_trace e.
Proof.
  intros Hrun.
  apply AudioNet_init_Ok in Hrun as (?&?&?&?&?&?&Hn&?&?).
  repeat (split; [done|]). split; [|done].
  intros e1. by apply get_to_linear_cached_run.
Qed.

Lemma load_model_result path params e net e' :
  run (load_model path params) e = (Ok net, e') →
  in_ch net = default 1%Z (params !! "in_ch")
  ∧ num_filters1 net = default 32%Z (params !! "num_filters1")
  ∧ num_filters2 net = default 64%Z (params !! "num_filters2")
  ∧ num_hidden net = default 128%Z (params !! "num_hidden")
  ∧ out_size net = default 1%Z (params !! "out_size")
  ∧ eval_mode net = true
  ∧ (∃ state_dict initial,
        torch_load (env_files e) path = Ok state_dict
        ∧ load_state_dict initial state_dict = Ok (state net))
  ∧ env_files e' = env_files e
  ∧ env_trace e' = env_trace e.
Proof.
  intros Hrun. pose proof (load_model_eval_mode _ _ _ _ _ Hrun) as Hev.
  revert Hrun. unfold load_model. rewrite run_bind.
  destruct (run (AudioNet_init params) e) as [[model|?] e1] eqn:Hinit;
    [|done].
  apply AudioNet_init_Ok in Hinit
    as (?&?&?&?&?&_&_&Hfiles&Htrace).
  rewrite run_bind. unfold read_files at 1, run at 1.
  destruct (torch_load (env_files e1) path) as [sd|?] eqn:Hload; [|done].
  rewrite run_bind, run_try.
  destruct (load_state_dict _ _) as [w|?] eqn:Hsd; [|done].
  rewrite run_ret. intros [= <- <-]. cbn.
  repeat (split; [done|]). split; [|done].
  exists sd, (state model). by rewrite <- Hfiles.
Qed.

(** X12. A constructed [Predictor] stores the two paths; its valence
    model has the hyperparameters (39, 32, 64, 64, 1) and its arousal
    model (39, 32, 32, 128, 1); both are in evaluation mode; the
    parameters of each are what [load_state_dict] returned for the state
    dict read from its own path; and construction neither changes the
    files nor logs a call. *)
Theorem Predictor_init_result mpv mpa e p e' :
  run (Predictor_init mpv mpa) e = (Ok p, e') →
  model_path_valence p = mpv ∧ model_path_arousal p = mpa
  ∧ (in_ch (valence_model p), num_filters1 (valence_model p),
     num_filters2 (valence_model p), num_hidden (valence_model p),
     out_size (valence_model p)) = (39, 32, 64, 64, 1)%Z
  ∧ (in_ch (arousal_model p), num_filters1 (arousal_model p),
     num_filters2 (arousal_model p), num_hidden (arousal_model p),
     out_size (arousal_model p)) = (39, 32, 32, 128, 1)%Z
  ∧ predictor_eval_mode p = true
  ∧ (∃ state_dict initial,
        torch_load (env_files e) mpv = Ok state_dict
        ∧ load_state_dict initial state_dict = Ok (state (valence_model p)))
  ∧ (∃ state_dict initial,
        torch_load (env_files e) mpa = Ok state_dict
        ∧ load_state_dict initial state_dict = Ok (state (arousal_model p)))
  ∧ env_files e' = env_files e
  ∧ env_trace e' = env_trace e.
Proof.
  unfold Predictor_init. rewrite run_bind.
  destruct (run (load_model mpv valence_params) e)
    as [[vm|?] e1] eqn:Hv; [|done].
  rewrite run_bind.
  destruct (run (load_model mpa arousal_params) e1)
    as [[am|?] e2] eqn:Ha; [|done].
  rewrite run_ret. intros [= <- <-].
  apply load_model_result in Hv
    as (V1&V2&V3&V4&V5&Vev&Vsd&Vfiles&Vtrace).
  apply load_model_result in Ha
    as (A1&A2&A3&A4&A5&Aev&Asd&Afiles&Atrace).
  cbn [model_path_valence model_path_arousal valence_model arousal_model].
  split; [done|]. split; [done|].
  split; [by rewrite V1, V2, V3, V4, V5|].
  split; [by rewrite A1, A2, A3, A4, A5|].
  split; [unfold predictor_eval_mode; cbn; by rewrite Vev, Aev|].
  split; [done|]. split; [by rewrite <- Vfiles|].
  split; congruence.
Qed.

End MoreNetwork.

(** A module as [AudioNet.__init__] has it before [_get_to_linear]. *)
Definition toy_fresh_net : AudioNet (L := Toy.libs) :=
  mkAudioNet (L := Toy.libs) 39 32 64 64 1 0 7%Z true None.

Lemma toy_get_to_linear_run :
  run (_get_to_linear (L := Toy.libs)) (Toy.start 0, toy_fresh_net)
  = (Ok 1%Z,
     (run (_get_to_linear (L := Toy.libs)) (Toy.start 0, toy_fresh_net)).2).
Proof. apply injective_projections; [by vm_compute|reflexivity]. Qed.

Lemma get_to_linear_computed_once_witness :
  _to_linear (run (_get_to_linear (L := Toy.libs))
                  (Toy.start 0, toy_fresh_net)).2.2 = Some 1%Z.
Proof.
  exact (proj1 (get_to_linear_computed_once _ _ _ toy_get_to_linear_run)).
Defined.

(** The module built from an empty [params_dict]. *)
Definition toy_default_net : AudioNet (L := Toy.libs) :=
  mkAudioNet (L := Toy.libs) 1 32 64 128 1 1 4%Z true (Some 1%Z).

Lemma toy_AudioNet_init_run :
  run (AudioNet_init (L := Toy.libs) ∅) (Toy.start 0)
  = (Ok toy_default_net,
     (run (AudioNet_init (L := Toy.libs) ∅) (Toy.start 0)).2).
Proof. apply injective_projections; [by vm_compute|reflexivity]. Qed.

Lemma AudioNet_init_result_witness :
  in_ch toy_default_net = default 1%Z ((∅ : gmap string Z) !! "in_ch").
Proof.
  exact (proj1 (AudioNet_init_result _ _ _ _ toy_AudioNet_init_run)).
Defined.

Lemma toy_Predictor_init_run :
  run (Predictor_init (L := Toy.libs) "valence.pth" "arousal.pth")
      (Toy.start 0)
  = (Ok toy_predictor,
     (run (Predictor_init (L := Toy.libs) "valence.pth" "arousal.pth")
          (Toy.start 0)).2).
Proof. apply injective_projections; [by vm_compute|reflexivity]. Qed.

Lemma Predictor_init_result_witness :
  model_path_valence toy_predictor = "valence.pth".
Proof.
  exact (proj1 (Predictor_init_result _ _ _ _ _ toy_Predictor_init_run)).
Defined.

(** *** The genre extractor *)

Section Genre.
Context {L : Libs}.

Lemma fold_stats_concat (rows : matrix sample) (init : list sample) :
  fold_left (λ features mfcc, features ++ stats [mfcc]) rows init
  = init ++ concat ((λ mfcc, stats [mfcc]) <$> rows).
Proof.
  revert init. induction rows as [|r rows IH]; intros init; simpl.
  - by rewrite app_nil_r.
  - rewrite IH. by rewrite <- (assoc_L (++)).
Qed.

Lemma stats_concat_lookup (rows : matrix sample) i row :
  rows !! i = Some row →
  concat ((λ mfcc, stats [mfcc]) <$> rows) !! (2 * i)%nat
  = Some (np_mean [row])
  ∧ concat ((λ mfcc, stats [mfcc]) <$> rows) !! (2 * i + 1)%nat
    = Some (np_var [row]).
Proof.
  revert i. induction rows as [|r rows IH]; intros [|i] Hi; simplify_eq/=.
  - done.
  - replace (i + S (i + 0))%nat with (S (2 * i)) by lia.
    replace (i + S (i + 0) + 1)%nat with (S (2 * i + 1)) by lia.
    simpl. by apply IH.
Qed.

(** X13. When the genre extractor of line 284 returns, its vector is
    laid out as the source appends it: mean and variance of the chroma,
    rms, spectral centroid, bandwidth, roll-off, zero-crossing rate,
    harmonic and percussive parts (indices 0-15), the mean tempo (index
    16), then for the i-th MFCC row its mean at index 17 + 2i and its
    variance at index 18 + 2i.  The waveform is decoded at its native
    rate and handed to every call unwindowed, and the call changes
    nothing in the environment. *)
Theorem extract_features_2_layout e path v e' :
  run (extract_features_2 path) e = (Ok v, e') →
  e' = e
  ∧ ∃ y sr chroma rms centroid bandwidth rolloff zcr harmony percussive
      tempo mfccs,
      librosa_load (env_files e) path None = Ok (y, sr)
      ∧ chroma_stft y sr 2048 512 = Ok chroma
      ∧ librosa_other "rms" y None = Ok rms
      ∧ librosa_other "spectral_centroid" y (Some sr) = Ok centroid
      ∧ librosa_other "spectral_bandwidth" y (Some sr) = Ok bandwidth
      ∧ librosa_other "spectral_rolloff" y (Some sr) = Ok rolloff
      ∧ librosa_other "zero_crossing_rate" y None = Ok zcr
      ∧ librosa_other "harmonic" y None = Ok harmony
      ∧ librosa_other "percussive" y None = Ok percussive
      ∧ librosa_other "tempo" y (Some sr) = Ok tempo
      ∧ mfcc y sr 20 2048 512 None = Ok mfccs
      ∧ take 17 v
        = stats chroma ++ stats rms ++ stats centroid ++ stats bandwidth
          ++ stats rolloff ++ stats zcr ++ stats harmony
          ++ stats percussive ++ [np_mean tempo]
      ∧ length v = (17 + 2 * length mfccs)%nat
      ∧ ∀ i row, mfccs !! i = Some row →
                 v !! (17 + 2 * i)%nat = Some (np_mean [row])
                 ∧ v !! (18 + 2 * i)%nat = Some (np_var [row]).
Proof.
  unfold extract_features_2, run, mbind, M_bind, bind, mret, M_ret, ret,
    try, read_files.
  destruct (librosa_load _ _ _) as [[y sr]|?] eqn:Hload; [|done].
  destruct (chroma_stft _ _ _ _) as [chroma|?] eqn:H0; [|done].
  destruct (librosa_other "rms" _ _) as [rms|?] eqn:H1; [|done].
  destruct (librosa_other "spectral_centroid" _ _) as [cen|?] eqn:H2;
    [|done].
  destruct (librosa_other "spectral_bandwidth" _ _) as [bw|?] eqn:H3;
    [|done].
  destruct (librosa_other "spectral_rolloff" _ _) as [ro|?] eqn:H4; [|done].
  destruct (librosa_other "zero_crossing_rate" _ _) as [zc|?] eqn:H5;
    [|done].
  destruct (librosa_other "harmonic" _ _) as [ha|?] eqn:H6; [|done].
  destruct (librosa_other "percussive" _ _) as [pe|?] eqn:H7; [|done].
  destruct (librosa_other "tempo" _ _) as [te|?] eqn:H8; [|done].
  destruct (mfcc _ _ _ _ _ _) as [mfccs|?] eqn:H9; [|done].
  intros [= <- <-]. split; [done|].
  exists y, sr, chroma, rms, cen, bw, ro, zc, ha, pe, te, mfccs.
  repeat (split; [done|]).
  rewrite fold_stats_concat. split; [done|]. split.
  - rewrite <- fold_stats_concat, fold_stats_length. simpl. lia.
  - intros i row Hi.
    destruct (stats_concat_lookup mfccs i row Hi) as [Hm Hv].
    split.
    + rewrite lookup_app_r by (simpl; lia).
      by replace (17 + 2 * i - _)%nat with (2 * i)%nat by (simpl; lia).
    + rewrite lookup_app_r by (simpl; lia).
      by replace (18 + 2 * i - _)%nat with (2 * i + 1)%nat by (simpl; lia).
Qed.

End Genre.

(** The genre vector of "song.mp3" on the small instance. *)
Definition toy_genre_vector : list Z :=
  concat (replicate 8 [3; 0]%Z) ++ [3%Z] ++ concat (replicate 20 [3; 0]%Z).

Lemma toy_extract_features_2_run :
  run (extract_features_2 (L := Toy.libs) "song.mp3") (Toy.start 0)
  = (Ok toy_genre_vector,
     (run (extract_features_2 (L := Toy.libs) "song.mp3") (Toy.start 0)).2).
Proof. apply injective_projections; [by vm_compute|reflexivity]. Qed.

Lemma extract_features_2_layout_witness :
  (run (extract_features_2 (L := Toy.libs) "song.mp3") (Toy.start 0)).2
  = Toy.start 0.
Proof.
  exact (proj1 (extract_features_2_layout _ _ _ _
                  toy_extract_features_2_run)).
Defined.

(** *** [class MusicGenreClassifier] (lines 254-282) *)

(** What the genre classifier needs from [torch] beyond [Libs]. *)
Class GenreLibs (L : Libs) : Type := {
  (** random initial parameters of the six linear layers
      ([input_size], [num_classes]) *)
  init_classifier : Z → Z → rng → weights * rng;
  (** [nn.Dropout(0.3)] while training: a random mask *)
  dropout3_train : tensor → rng → tensor * rng;
}.

Section Classifier.
Context {L : Libs} {G : GenreLibs L}.

Record MusicGenreClassifier : Type := mkClassifier {
  input_size : Z;
  num_classes : Z;
  classifier_state : weights;
  classifier_training : bool;
}.

(** [nn.Dropout(0.3)] *)
Definition drop3 (x : tensor) : M exn (env * MusicGenreClassifier) tensor :=
  net ← self;
  if classifier_training net then in_env (draw (dropout3_train x))
  else mret x.

(** [nn.Linear(...), nn.ReLU(), nn.Dropout(0.3)] at index [name] of
    [self.network] *)
Definition dense (name : string) (x : tensor)
  : M exn (env * MusicGenreClassifier) tensor :=
  net ← self;
  x ← try (linear (classifier_state net) name x);
  drop3 (relu x).

(** [MusicGenreClassifier.forward]: [self.network(x)] *)
Definition classifier_forward (x : tensor)
  : M exn (env * MusicGenreClassifier) tensor :=
  x ← dense "network.0" x;
  x ← dense "network.3" x;
  x ← dense "network.6" x;
  x ← dense "network.9" x;
  x ← dense "network.12" x;
  net ← self;
  x ← try (linear (classifier_state net) "network.15" x);
  mret (softmax x).

(** [MusicGenreClassifier.__init__] *)
Definition MusicGenreClassifier_init (input_size num_classes : Z)
  : M exn env MusicGenreClassifier :=
  w ← draw (init_classifier input_size num_classes);
  mret (mkClassifier input_size num_classes w true).

(** Lines 280-282:
    [model = MusicGenreClassifier(input_size=57, num_classes=10)
     model.load_state_dict(torch.load('genre_classifier_model.pth'))
     model.eval()] *)
Definition model_init : M exn env MusicGenreClassifier :=
  model ← MusicGenreClassifier_init 57 10;
  state_dict ← read_files (λ f, torch_load f "genre_classifier_model.pth");
  w ← try (load_state_dict (classifier_state model) state_dict);
  mret (mkClassifier (input_size model) (num_classes model) w false).

(** [m] changes neither the classifier, nor the files, nor the trace. *)
Definition keeps_classifier {A}
    (m : M exn (env * MusicGenreClassifier) A) : Prop :=
  ∀ s, (run m s).2.2 = s.2
       ∧ env_files (run m s).2.1 = env_files s.1
       ∧ env_trace (run m s).2.1 = env_trace s.1.

Lemma keeps_classifier_bind {A B}
    (m : M exn (env * MusicGenreClassifier) A)
    (k : A → M exn (env * MusicGenreClassifier) B) :
  keeps_classifier m → (∀ a, keeps_classifier (k a)) →
  keeps_classifier (m ≫= k).
Proof.
  intros Hm Hk s. rewrite run_bind. destruct (Hm s) as (H1 & H2 & H3).
  destruct (run m s) as [[a|ex] s1]; [|done].
  destruct (Hk a s1) as (K1 & K2 & K3). cbn [fst snd] in *.
  repeat split; congruence.
Qed.

Lemma keeps_classifier_ret {A} (a : A) :
  keeps_classifier (mret a : M exn (env * MusicGenreClassifier) A).
Proof. by intros s. Qed.

Lemma keeps_classifier_try {A} (r : result exn A) :
  keeps_classifier (try r : M exn (env * MusicGenreClassifier) A).
Proof. by intros s. Qed.

Lemma keeps_classifier_self :
  keeps_classifier (self : M exn (env * MusicGenreClassifier) _).
Proof. by intros s. Qed.

Lemma keeps_classifier_draw {A} (f : rng → A * rng) :
  keeps_classifier (in_env (draw f) : M exn (env * MusicGenreClassifier) A).
Proof.
  intros [e net]. unfold in_env, zoom, draw, run. cbn [fst snd].
  by destruct (f (env_rng e)).
Qed.

Lemma keeps_classifier_dense name x : keeps_classifier (dense name x).
Proof.
  unfold dense, drop3.
  apply keeps_classifier_bind; [apply keeps_classifier_self|intros net].
  apply keeps_classifier_bind; [apply keeps_classifier_try|intros x1].
  apply keeps_classifier_bind; [apply keeps_classifier_self|intros net1].
  destruct (classifier_training net1);
    [apply keeps_classifier_draw|apply keeps_classifier_ret].
Qed.

Lemma classifier_forward_kept x e net :
  (run (classifier_forward x) (e, net)).2.2 = net
  ∧ env_files (run (classifier_forward x) (e, net)).2.1 = env_files e
  ∧ env_trace (run (classifier_forward x) (e, net)).2.1 = env_trace e.
Proof.
  assert (keeps_classifier (classifier_forward x)) as Hkeeps.
  { unfold classifier_forward.
    do 5 (apply keeps_classifier_bind;
          [apply keeps_classifier_dense|intros ?]).
    apply keeps_classifier_bind; [apply keeps_classifier_self|intros net1].
    apply keeps_classifier_bind; [apply keeps_classifier_try|intros x1].
    apply keeps_classifier_ret. }
  apply (Hkeeps (e, net)).
Qed.

Lemma classifier_forward_eval x net :
  classifier_training net = false →
  ∃ r, ∀ e, run (classifier_forward x) (e, net) = (r, (e, net)).
Proof.
  intros Htr.
  unfold classifier_forward, dense, drop3, run, mbind, M_bind, bind, mret,
    M_ret, ret, try, self.
  cbn [fst snd]. rewrite ?Htr.
  repeat match goal with
         | |- context [match ?r with Ok _ => _ | Raise _ => _ end] =>
             destruct r; cbn [fst snd]; rewrite ?Htr
         end;
    by eexists.
Qed.

Lemma model_init_result e g e' :
  run model_init e = (Ok g, e') →
  input_size g = 57%Z ∧ num_classes g = 10%Z
  ∧ classifier_training g = false.
Proof.
  unfold model_init, MusicGenreClassifier_init, draw, read_files, try, run,
    mbind, M_bind, bind, mret, M_ret, ret.
  destruct (init_classifier _ _ _) as [w g0].
  cbn [env_files env_rng env_trace classifier_state input_size num_classes].
  destruct (torch_load _ _) as [sd|?]; [|done].
  destruct (load_state_dict _ _) as [w'|?]; [|done].
  by intros [= <- _].
Qed.

(** X14. A forward pass of the genre classifier never changes the
    classifier, the files or the call trace, in either mode and whether
    it returns or raises (it has no batch normalization); in evaluation
    mode it draws no random number either.  The module-level [model] is
    built with [input_size = 57] and [num_classes = 10] and left in
    evaluation mode, and 57 is the length of every vector the
    module-level [extract_features] returns. *)
Theorem classifier_forward_frame {HL : LibsLaws L} :
  (∀ x e net,
      (run (classifier_forward x) (e, net)).2.2 = net
      ∧ env_files (run (classifier_forward x) (e, net)).2.1 = env_files e
      ∧ env_trace (run (classifier_forward x) (e, net)).2.1 = env_trace e)
  ∧ (∀ x net, classifier_training net = false →
              ∃ r, ∀ e, run (classifier_forward x) (e, net) = (r, (e, net)))
  ∧ (∀ e g e',
        run model_init e = (Ok g, e') →
        input_size g = 57%Z ∧ num_classes g = 10%Z
        ∧ classifier_training g = false
        ∧ ∀ e1 path v e2,
            run (extract_features_2 path) e1 = (Ok v, e2) →
            Z.of_nat (length v) = input_size g).
Proof.
  split; [apply classifier_forward_kept|].
  split; [apply classifier_forward_eval|].
  intros e g e' Hinit.
  apply model_init_result in Hinit as (Hin & Hnc & Htr).
  repeat (split; [done|]).
  intros e1 path v e2 Hrun.
  apply extract_features_2_length in Hrun. rewrite Hin. lia.
Qed.

End Classifier.

(** The classifier's extra library functions on the small instance. *)
Definition toy_init_classifier (a b g : Z) : Z * Z := (g, (g + 1)%Z).

Definition toy_dropout3 (x : list Z) (g : Z) : list Z * Z :=
  (Z.mul g <$> x, (g + 1)%Z).

Definition toy_genre_libs : GenreLibs Toy.libs :=
  Build_GenreLibs Toy.libs toy_init_classifier toy_dropout3.

(** The classifier at a fixed state, in evaluation mode: its forward
    pass leaves it as it is. *)
Lemma classifier_forward_frame_witness :
  (run (classifier_forward (G := toy_genre_libs) [1; 2]%Z)
       (Toy.start 0,
        mkClassifier (L := Toy.libs) 57 10 (4%Z : weights (Libs := Toy.libs))
                     false)).2.2
  = mkClassifier (L := Toy.libs) 57 10 (4%Z : weights (Libs := Toy.libs))
                 false.
Proof.
  exact (proj1 (proj1 (classifier_forward_frame (G := toy_genre_libs)
                         (HL := toy_laws)) _ _ _)).
Defined.

End Pipeline.

(** ** The page (runner.py, lines 316-349) *)

Module App.

Import Pipeline.
Import Stdlib.Strings.Ascii.

(** *** Strings *)

(** [s.split(".")]: the pieces of [s] between its dots. *)
Fixpoint split_dot (s : string) : list string :=
  match s with
  | EmptyString => [EmptyString]
  | String c s' =>
      if Ascii.eqb c "."%char then EmptyString :: split_dot s'
      else match split_dot s' with
           | piece :: pieces => String c piece :: pieces
           | [] => [String c EmptyString]
           end
  end.

(** ["." .join(pieces)] *)
Fixpoint join_dot (pieces : list string) : string :=
  match pieces with
  | [] => EmptyString
  | [piece] => piece
  | piece :: pieces => piece +:+ String "."%char (join_dot pieces)
  end.

(** The string has a dot. *)
Fixpoint has_dot (s : string) : bool :=
  match s with
  | EmptyString => false
  | String c s' => Ascii.eqb c "."%char || has_dot s'
  end.

(** *** Exceptions of the page

    [NameError] and [IndexError] are raised by the interpreter; every
    other exception comes out of a library call. *)
Inductive py_exn (E : Type) : Type :=
| NameError (name : string)
| IndexError
| LibraryError (e : E).
Arguments NameError {E} name.
Arguments IndexError {E}.
Arguments LibraryError {E} e.

(** *** The libraries the page calls

    [streamlit], the file system and the functions the page calls by
    name. *)
Class Streamlit : Type := {
  page : Type;          (** what has been rendered so far *)
  disk : Type;          (** the file system *)
  bytes : Type;
  upload : Type;        (** an uploaded file *)
  upload_name : upload → string;
  upload_read : upload → bytes;
  ui_exn : Type;
  (** a rendering call [st.<function>(<arguments>)] *)
  st_call : string → list string → page → result ui_exn unit * page;
  (** [st.file_uploader(label, type=types)] *)
  st_file_uploader :
    string → list string → page → result ui_exn (option upload) * page;
  (** [with open(path, 'wb') as f: f.write(data)] *)
  write_binary : string → bytes → disk → result ui_exn unit * disk;
  (** [os.path.abspath(path)] *)
  abspath : string → string;
  (** calling a function object on arguments *)
  call_function :
    pyobj → list string → page → result ui_exn unit * page;
}.

Section Page.
Context {S : Streamlit}.

Record app : Type := App { app_page : page; app_disk : disk }.

Definition on_page {A} (f : page → result ui_exn A * page)
  : M (py_exn ui_exn) app A :=
  λ s, match f (app_page s) with
       | (Ok a, p) => (Ok a, App p (app_disk s))
       | (Raise e, p) => (Raise (LibraryError e), App p (app_disk s))
       end.

Definition on_disk {A} (f : disk → result ui_exn A * disk)
  : M (py_exn ui_exn) app A :=
  λ s, match f (app_disk s) with
       | (Ok a, d) => (Ok a, App (app_page s) d)
       | (Raise e, d) => (Raise (LibraryError e), App (app_page s) d)
       end.

(** Loading a global name: [NameError] when the module never bound
    it. *)
Definition global (name : string) : M (py_exn ui_exn) app pyobj :=
  match module_globals !! name with
  | Some obj => mret obj
  | None => try (Raise (NameError name))
  end.

(** [pieces[0]] *)
Definition index0 (pieces : list string) : M (py_exn ui_exn) app string :=
  match pieces with
  | piece :: _ => mret piece
  | [] => try (Raise IndexError)
  end.

(** [st.<function>(<arguments>)] *)
Definition st (function : string) (arguments : list string)
  : M (py_exn ui_exn) app unit :=
  global "st";;
  on_page (st_call function arguments).

Definition title_markup : string :=
  "<h2 style='text-align: center;'>🎧 Moodify</h2>".
Definition sidebar_markup : string :=
  "<h1 style='text-align: left;'>🎧 Moodify</h1>".

(** [main] (lines 316-344).  The calls made inside [with st.sidebar:]
    are the sidebar's: [sidebar.markdown] and the file uploader.
    Keyword arguments are passed as [keyword=value]. *)
Definition main : M (py_exn ui_exn) app unit :=
  st "markdown" [title_markup; "unsafe_allow_html=True"];;
  st "sidebar.markdown" [sidebar_markup; "unsafe_allow_html=True"];;
  global "st";;
  audio_file ← on_page (st_file_uploader "Please upload an audio file (MP3)"
                                        ["mp3"]);
  match audio_file with
  | None => mret tt
  | Some audio_file =>
      on_disk (write_binary "temp_audio.mp3" (upload_read audio_file));;
      global "os";;
      let temp_audio_path := abspath "temp_audio.mp3" in
      audio_title ← index0 (split_dot (upload_name audio_file));
      st "subheader" ["Audio Track: " +:+ audio_title];;
      st "audio" [temp_audio_path; "format=audio/mp3"];;
      st "subheader" ["Spectrogram:"];;
      st "write" ["Generating Spectrogram..."];;
      audio_to_spectrogram ← global "audio_to_spectrogram";
      on_page (call_function audio_to_spectrogram [temp_audio_path]);;
      analyze_audio ← global "analyze_audio";
      global "model";;
      on_page (call_function analyze_audio [temp_audio_path; "model"])
  end.

(** *** Properties of the page *)

Lemma join_dot_cons piece pieces :
  join_dot (piece :: pieces)
  = match pieces with
    | [] => piece
    | _ => piece +:+ String "."%char (join_dot pieces)
    end.
Proof. by destruct pieces. Qed.

Lemma split_dot_nonempty s : split_dot s ≠ [].
Proof.
  destruct s as [|c s]; simpl; [done|].
  destruct (Ascii.eqb c "."); [done|]. by destruct (split_dot s).
Qed.

Lemma split_dot_pieces s : Forall (λ p, has_dot p = false) (split_dot s).
Proof.
  induction s as [|c s IH]; simpl; [by repeat constructor|].
  destruct (Ascii.eqb c ".") eqn:Hc; [by constructor|].
  destruct (split_dot s) as [|piece pieces].
  { repeat constructor. simpl. by rewrite Hc. }
  apply Forall_cons in IH as [Hp Hps]. constructor; [|done].
  simpl. by rewrite Hc.
Qed.

Lemma join_split_dot s : join_dot (split_dot s) = s.
Proof.
  induction s as [|c s IH]; simpl; [done|].
  destruct (Ascii.eqb_spec c ".") as [->|Hc].
  - pose proof (split_dot_nonempty s) as Hne.
    rewrite join_dot_cons. destruct (split_dot s) eqn:Hs; [done|].
    simpl. by rewrite <- IH.
  - pose proof (split_dot_nonempty s) as Hne.
    destruct (split_dot s) as [|piece pieces] eqn:Hs; [done|].
    rewrite join_dot_cons in *. destruct pieces; simpl; by rewrite <- IH.
Qed.

Lemma split_dot_no_dot s : has_dot s = false → split_dot s = [s].
Proof.
  induction s as [|c s IH]; simpl; [done|].
  intros [Hc Hs]%orb_false_elim. rewrite Hc, (IH Hs). done.
Qed.

(** X15. The title the page shows is the uploaded file's name up to its
    first dot: [name.split(".")] is never empty (so [[0]] never raises
    [IndexError]), none of its pieces holds a dot, joining the pieces
    with dots gives the name back, and so the name is the title alone
    or the title followed by a dot and the rest; a name without a dot
    is its own title. *)
Theorem split_dot_title name :
  ∃ title rest,
    split_dot name = title :: rest
    ∧ run (index0 (split_dot name)) = run (mret title)
    ∧ has_dot title = false
    ∧ Forall (λ p, has_dot p = false) rest
    ∧ join_dot (title :: rest) = name
    ∧ (name = title ∨ ∃ tail, name = title +:+ String "."%char tail)
    ∧ (has_dot name = false → title = name ∧ rest = []).
Proof.
  pose proof (split_dot_nonempty name) as Hne.
  pose proof (split_dot_pieces name) as Hp.
  pose proof (join_split_dot name) as Hj.
  destruct (split_dot name) as [|title rest] eqn:Hs; [done|].
  apply Forall_cons in Hp as [Ht Hr].
  exists title, rest. repeat (split; [done|]). split.
  - rewrite join_dot_cons in Hj. destruct rest; [by left|].
    right. by eexists.
  - intros Hn. rewrite (split_dot_no_dot name Hn) in Hs. by simplify_eq.
Qed.










End Page.

(** *** Runs of the page on a small instance

    The page is the pending upload, if any, and the list of what was
    rendered; the disk maps paths to contents. *)

Definition toy_st_call (function : string) (arguments : list string)
    (p : option (string * list Z) * list string)
  : result string unit * (option (string * list Z) * list string) :=
  (Ok tt, (p.1, p.2 ++ [function +:+ ":" +:+ join_dot arguments])).

Definition toy_file_uploader (label : string) (types : list string)
    (p : option (string * list Z) * list string)
  : result string (option (string * list Z))
    * (option (string * list Z) * list string) :=
  (Ok p.1, (None, p.2 ++ ["file_uploader"])).

Definition toy_write_binary (path : string) (data : list Z)
    (d : gmap string (list Z))
  : result string unit * gmap string (list Z) :=
  (Ok tt, <[path := data]> d).

Definition toy_streamlit : Streamlit := {|
  page := option (string * list Z) * list string;
  disk := gmap string (list Z);
  bytes := list Z;
  upload := string * list Z;
  upload_name := fst;
  upload_read := snd;
  ui_exn := string;
  st_call := toy_st_call;
  st_file_uploader := toy_file_uploader;
  write_binary := toy_write_binary;
  abspath path := "/app/" +:+ path;
  call_function f arguments p := (Ok tt, p);
|}.

(** The page before a run, with or without a pending upload. *)
Definition toy_app (pending : option (string * list Z))
  : app (S := toy_streamlit) :=
  App (S := toy_streamlit) (pending, []) ∅.

Lemma toy_main_without_upload :
  run (main (S := toy_streamlit)) (toy_app None)
  = (Ok tt,
     App (S := toy_streamlit)
         (None,
          ["markdown:" +:+ title_markup +:+ ".unsafe_allow_html=True";
           "sidebar.markdown:" +:+ sidebar_markup
             +:+ ".unsafe_allow_html=True";
           "file_uploader"])
         ∅).
Proof. by vm_compute. Qed.



End App.
